(** * ai-report: provider fallback orchestrator

    Shallow embedding of [supabase/functions/ai-report/index.ts]: the five
    provider adapters ([tryOpenAI], [tryOpenRouter], [tryGemini],
    [tryHuggingFace], [tryReplicate]) and the [serve] handler that tries them
    in order.  JavaScript values that come out of [res.json()] are modelled by
    the inductive type [json]; [undefined] is [None] in [option json].
    Effects (environment lookup, [fetch], timers, [console.error]) and thrown
    errors live in a small state-and-exception monad [M]. *)

From Stdlib Require Import String Ascii List ZArith Bool Lia DecimalString.
Import ListNotations.
Open Scope string_scope.

Set Warnings "-register-all,-postfix-notation-not-level-1,-notation-overridden".

(* ================================================================== *)
(** ** JavaScript values *)
(* ================================================================== *)

Module Js.

(** A thrown JavaScript [Error] object: its [name] and its [message]. *)
Record js_error := mk_error { err_name : string; err_message : string }.

Definition Error (msg : string) : js_error := mk_error "Error" msg.
Definition TypeError (msg : string) : js_error := mk_error "TypeError" msg.
Definition SyntaxError (msg : string) : js_error := mk_error "SyntaxError" msg.

(** [String(error)], i.e. [Error.prototype.toString]. *)
Definition String_error (e : js_error) : string :=
  match err_name e, err_message e with
  | n, EmptyString => n
  | EmptyString, m => m
  | n, m => n ++ ": " ++ m
  end.

(** The result of evaluating an expression that may throw. *)
Inductive result (A : Type) : Type :=
| Ok (a : A)
| Throw (e : js_error).
Arguments Ok {A} a.
Arguments Throw {A} e.

(** Values produced by [JSON.parse].  A number [JNum m e] stands for the
    finite decimal [m * 10^-e] ([JNum 2 1] is [0.2]); the entries of an
    object are listed in property enumeration order. *)
Inductive json : Type :=
| JNull
| JBool (b : bool)
| JNum (m : Z) (e : nat)
| JStr (s : string)
| JArr (items : list json)
| JObj (props : list (string * json)).

Fixpoint assoc {A : Type} (k : string) (kvs : list (string * A)) : option A :=
  match kvs with
  | [] => None
  | (k', v) :: rest => if String.eqb k k' then Some v else assoc k rest
  end.

Definition has_own {A : Type} (k : string) (kvs : list (string * A)) : bool :=
  match assoc k kvs with Some _ => true | None => false end.

(** [v.name] for a value [v] that is neither [null] nor [undefined], and for
    a name that no prototype defines: own properties only exist on objects. *)
Definition get_prop (v : json) (name : string) : option json :=
  match v with
  | JObj kvs => assoc name kvs
  | _ => None
  end.

(** [v[0]] for a value [v] that is neither [null] nor [undefined]. *)
Definition get_index0 (v : json) : option json :=
  match v with
  | JArr items => nth_error items 0
  | JObj kvs => assoc "0" kvs
  | JStr (String c _) => Some (JStr (String c EmptyString))
  | _ => None
  end.

(** Optional chaining [v?.f]: [undefined] when [v] is [null] or
    [undefined], the access [f v] otherwise. *)
Definition opt_chain (v : option json) (f : json -> option json) : option json :=
  match v with
  | None | Some JNull => None
  | Some x => f x
  end.

Notation "v ?. name" := (opt_chain v (fun x => get_prop x name))
  (at level 45, left associativity).
Notation "v ?.[0]" := (opt_chain v get_index0)
  (at level 45, left associativity).

(** Truthiness ([!!v]). *)
Definition truthy (v : json) : bool :=
  match v with
  | JNull => false
  | JBool b => b
  | JNum m _ => negb (Z.eqb m 0)
  | JStr EmptyString => false
  | JStr _ => true
  | JArr _ | JObj _ => true
  end.

Definition truthy_opt (v : option json) : bool :=
  match v with Some x => truthy x | None => false end.

Definition truthy_string (s : string) : bool :=
  match s with EmptyString => false | _ => true end.

Definition Array_isArray (v : json) : bool :=
  match v with JArr _ => true | _ => false end.

(** [typeof v === "object"]: true of [null], arrays and objects. *)
Definition typeof_object (v : json) : bool :=
  match v with JNull | JArr _ | JObj _ => true | _ => false end.

(** *** Numbers to text *)

Definition digits_of (n : Z) : string :=
  NilZero.string_of_uint (N.to_uint (Z.to_N (Z.abs n))).

Fixpoint zeros (n : nat) : string :=
  match n with O => "" | S n' => String "0" (zeros n') end.

(** [s] without its trailing zeros. *)
Fixpoint strip_zeros (s : string) : string :=
  match s with
  | EmptyString => EmptyString
  | String c r =>
      match strip_zeros r with
      | EmptyString =>
          if Ascii.eqb c "0" then EmptyString else String c EmptyString
      | r' => String c r'
      end
  end.

(** Number to text, as [Number.prototype.toString] writes a number whose
    shortest decimal is [m * 10^-e]: with [s] the [k] significant digits
    and [n] the position of the decimal point, the digits and zeros when
    [k <= n <= 21], the digits around a point when [0 < n <= 21], a
    leading [0.] when [-6 < n <= 0], and the exponent form otherwise
    ([1.0] is [1], [0.50] is [0.5], [-0.0] is [0], [10^21] is [1e+21]).
    A number written with more digits than a double holds is rounded by
    [JSON.parse] before it gets here; that rounding is outside the model,
    where [JNum] holds the decimal that the double prints as. *)
Definition num_to_string (m : Z) (e : nat) : string :=
  if Z.eqb m 0 then "0"
  else
    let sign := if Z.ltb m 0 then "-" else "" in
    let all := digits_of m in
    let s :=
      match all with
      | String c r => String c (strip_zeros r)
      | EmptyString => "0"
      end in
    let k := String.length s in
    let n := (Z.of_nat (String.length all) - Z.of_nat e)%Z in
    sign ++
    (if Z.leb (Z.of_nat k) n && Z.leb n 21 then
       s ++ zeros (Z.to_nat n - k)
     else if Z.ltb 0 n && Z.leb n 21 then
       substring 0 (Z.to_nat n) s ++ "." ++
       substring (Z.to_nat n) (k - Z.to_nat n) s
     else if Z.ltb (-6) n && Z.leb n 0 then
       "0." ++ zeros (Z.to_nat (- n)) ++ s
     else
       let x := (n - 1)%Z in
       let exponent := "e" ++ (if Z.ltb x 0 then "-" else "+") ++ digits_of x in
       match s with
       | String c EmptyString => s ++ exponent
       | String c r => String c ("." ++ r) ++ exponent
       | EmptyString => exponent
       end).

(** *** ToString *)

(** The error of calling a property that is not a function; the message
    names the callee as it is written at the call. *)
Definition not_a_function (callee : string) : js_error :=
  TypeError (callee ++ " is not a function").
Definition cannot_convert : js_error :=
  TypeError "Cannot convert object to primitive value".

(** The abstract operation ToString on a parsed value.  An object whose own
    [toString] property shadows the inherited method cannot be converted
    (its value, coming from JSON, is never callable).  Arrays convert by
    [join(",")], where [null] elements give the empty string. *)
Fixpoint js_to_string (v : json) : result string :=
  match v with
  | JNull => Ok "null"
  | JBool b => Ok (if b then "true" else "false")
  | JNum m e => Ok (num_to_string m e)
  | JStr s => Ok s
  | JArr items =>
      match
        (fix parts (l : list json) : result (list string) :=
           match l with
           | [] => Ok []
           | x :: l' =>
               match (match x with JNull => Ok "" | _ => js_to_string x end) with
               | Throw e => Throw e
               | Ok s =>
                   match parts l' with
                   | Throw e => Throw e
                   | Ok ss => Ok (s :: ss)
                   end
               end
           end) items
      with
      | Throw e => Throw e
      | Ok ss => Ok (String.concat "," ss)
      end
  | JObj kvs =>
      if has_own "toString" kvs then Throw cannot_convert
      else Ok "[object Object]"
  end.

(** [items.join(sep)]. *)
Fixpoint join_parts (items : list json) : result (list string) :=
  match items with
  | [] => Ok []
  | x :: rest =>
      match (match x with JNull => Ok "" | _ => js_to_string x end) with
      | Throw e => Throw e
      | Ok s =>
          match join_parts rest with
          | Throw e => Throw e
          | Ok ss => Ok (s :: ss)
          end
      end
  end.

Definition Array_join (items : list json) (sep : string) : result string :=
  match join_parts items with
  | Throw e => Throw e
  | Ok ss => Ok (String.concat sep ss)
  end.

(** The method call [v.toString()] on a value that is neither [null] nor
    [undefined]; [callee] is the text of the called expression. *)
Definition call_toString (callee : string) (v : json) : result string :=
  match v with
  | JObj kvs =>
      if has_own "toString" kvs then Throw (not_a_function callee)
      else Ok "[object Object]"
  | _ => js_to_string v
  end.

(** [v?.toString()]. *)
Definition opt_toString (callee : string) (v : option json)
  : result (option string) :=
  match v with
  | None | Some JNull => Ok None
  | Some x =>
      match call_toString callee x with
      | Throw e => Throw e
      | Ok s => Ok (Some s)
      end
  end.

(** *** JSON.stringify *)

Definition hex_digit (n : nat) : ascii :=
  match n with
  | 0 => "0" | 1 => "1" | 2 => "2" | 3 => "3" | 4 => "4" | 5 => "5"
  | 6 => "6" | 7 => "7" | 8 => "8" | 9 => "9" | 10 => "a" | 11 => "b"
  | 12 => "c" | 13 => "d" | 14 => "e" | _ => "f"
  end%char.

Definition escape_char (c : ascii) : string :=
  let n := nat_of_ascii c in
  if Nat.eqb n 34 then "\" ++ String c ""
  else if Nat.eqb n 92 then "\\"
  else if Nat.eqb n 8 then "\b"
  else if Nat.eqb n 12 then "\f"
  else if Nat.eqb n 10 then "\n"
  else if Nat.eqb n 13 then "\r"
  else if Nat.eqb n 9 then "\t"
  else if Nat.ltb n 32 then
    "\u00" ++ String (hex_digit (n / 16)) (String (hex_digit (n mod 16)) "")
  else String c "".

Fixpoint escape (s : string) : string :=
  match s with
  | EmptyString => ""
  | String c rest => escape_char c ++ escape rest
  end.

Definition dquote : string := String (ascii_of_nat 34) "".
Definition newline : string := String (ascii_of_nat 10) "".

Definition quote (s : string) : string := dquote ++ escape s ++ dquote.

Fixpoint JSON_stringify (v : json) : string :=
  match v with
  | JNull => "null"
  | JBool b => if b then "true" else "false"
  | JNum m e => num_to_string m e
  | JStr s => quote s
  | JArr items =>
      "[" ++ String.concat ","
               ((fix each (l : list json) : list string :=
                   match l with
                   | [] => []
                   | x :: l' => JSON_stringify x :: each l'
                   end) items) ++ "]"
  | JObj kvs =>
      "{" ++ String.concat ","
               ((fix each (l : list (string * json)) : list string :=
                   match l with
                   | [] => []
                   | (k, x) :: l' => (quote k ++ ":" ++ JSON_stringify x) :: each l'
                   end) kvs) ++ "}"
  end.

End Js.

(* ================================================================== *)
(** ** Effects: environment, network, timers, console *)
(* ================================================================== *)

Module Effects.
Import Js.

(** The arguments of a [fetch] call. *)
Record request := mk_request {
  req_url : string;
  req_method : string;
  req_headers : list (string * string);
  req_body : option string
}.

(** What [res.json()] gives: the parsed body, or the rejection raised on a
    body that is not JSON. *)
Inductive parsed : Type :=
| GoodJson (data : json)
| BadJson (e : js_error).

(** A settled [fetch]: the HTTP status and the body. *)
Record reply := mk_reply { status : Z; payload : parsed }.

(** [fetch] either rejects (network fault, invalid URL) or resolves. *)
Inductive fetch_result : Type :=
| NetFail (e : js_error)
| NetReply (r : reply).

(** Observable effects, oldest first in a log.  [EvCalled] is written only
    by the stub adapters used to count invocations of the sequencer. *)
Inductive event : Type :=
| EvFetch (rq : request)
| EvSleep (ms : Z)
| EvConsoleError (label : string) (e : js_error)
| EvCalled (provider : string) (prompt : string).

(** The world an invocation runs in: the process environment, the network
    (the answer to a request may depend on everything that happened before),
    and the log of effects so far. *)
Record World := mk_world {
  env : string -> option string;
  net : list event -> request -> fetch_result;
  log : list event
}.

Definition record (ev : event) (w : World) : World :=
  mk_world (env w) (net w) (log w ++ [ev]).

(** Computations that read and extend the world and may throw. *)
Definition M (A : Type) : Type := World -> result A * World.

Definition ret {A} (a : A) : M A := fun w => (Ok a, w).

Definition throw {A} (e : js_error) : M A := fun w => (Throw e, w).

Definition bind {A B} (m : M A) (k : A -> M B) : M B :=
  fun w =>
    match m w with
    | (Ok a, w') => k a w'
    | (Throw e, w') => (Throw e, w')
    end.

(** [try { m } catch (error) { h error }]. *)
Definition try_catch {A} (m : M A) (h : js_error -> M A) : M A :=
  fun w =>
    match m w with
    | (Ok a, w') => (Ok a, w')
    | (Throw e, w') => h e w'
    end.

(** A pure expression that may throw. *)
Definition lift {A} (r : result A) : M A := fun w => (r, w).

Notation "x <- m ;; k" := (bind m (fun x => k))
  (at level 61, m at next level, right associativity).
Notation "m ;;; k" := (bind m (fun _ => k))
  (at level 61, right associativity).

Definition Deno_env_get (name : string) : M (option string) :=
  fun w => (Ok (env w name), w).

Definition fetch (rq : request) : M reply :=
  fun w =>
    match net w (log w) rq with
    | NetFail e => (Throw e, record (EvFetch rq) w)
    | NetReply r => (Ok r, record (EvFetch rq) w)
    end.

(** [res.ok]: the status is in the range 200-299. *)
Definition res_ok (r : reply) : bool :=
  (200 <=? status r)%Z && (status r <=? 299)%Z.

(** [await res.json()]. *)
Definition res_json (r : reply) : M json :=
  match payload r with
  | GoodJson data => ret data
  | BadJson e => throw e
  end.

(** [await new Promise((r) => setTimeout(r, ms))]. *)
Definition sleep (ms : Z) : M unit :=
  fun w => (Ok tt, record (EvSleep ms) w).

Definition console_error (label : string) (e : js_error) : M unit :=
  fun w => (Ok tt, record (EvConsoleError label e) w).

End Effects.

(* ================================================================== *)
(** ** The edge function *)
(* ================================================================== *)

Module AiReport.
Import Js Effects.

Definition corsHeaders : list (string * string) :=
  [("Access-Control-Allow-Origin", "*");
   ("Access-Control-Allow-Headers",
    "authorization, x-client-info, apikey, content-type")].

(** What an adapter returns: [{ ok: true, provider, text }] or
    [{ ok: false, provider, error }]. *)
Inductive outcome : Type :=
| Success (provider : string) (text : json)
| Failure (provider : string) (error : string).

Definition adapter : Type := string -> M outcome.

(** [!KEY] on the result of [Deno.env.get]: a missing or empty variable is
    not configured. *)
Definition configured (v : option string) : option string :=
  match v with
  | Some k => if truthy_string k then Some k else None
  | None => None
  end.

(** [v.name] where [v] may be [null]. *)
Definition member (v : json) (name : string) : M (option json) :=
  match v with
  | JNull =>
      throw (TypeError
               ("Cannot read properties of null (reading '" ++ name ++ "')"))
  | _ => ret (get_prop v name)
  end.

(** [v === s] for a string literal [s]. *)
Definition strict_eq (v : option json) (s : string) : bool :=
  match v with
  | Some (JStr t) => String.eqb t s
  | _ => false
  end.

(** A value interpolated in a template literal. *)
Definition interpolate (v : option json) : result string :=
  match v with
  | None => Ok "undefined"
  | Some x => js_to_string x
  end.

(** [v ?? d]. *)
Definition nullish_or (v : option json) (d : json) : json :=
  match v with
  | None | Some JNull => d
  | Some x => x
  end.

(** *** OpenAI *)

Definition tryOpenAI_payload (prompt : string) : json :=
  JObj [("model", JStr "gpt-4.1-2025-04-14");
        ("messages",
         JArr [JObj [("role", JStr "system");
                     ("content", JStr "You are an expert analyst that produces concise, actionable reports.")];
               JObj [("role", JStr "user"); ("content", JStr prompt)]]);
        ("temperature", JNum 2 1)].

Definition tryOpenAI_request (OPENAI_API_KEY prompt : string) : request :=
  mk_request "https://api.openai.com/v1/chat/completions" "POST"
    [("Authorization", "Bearer " ++ OPENAI_API_KEY);
     ("Content-Type", "application/json")]
    (Some (JSON_stringify (tryOpenAI_payload prompt))).

(** The [try] block of [tryOpenAI]. *)
Definition tryOpenAI_try (OPENAI_API_KEY prompt : string) : M outcome :=
  res <- fetch (tryOpenAI_request OPENAI_API_KEY prompt) ;;
  if negb (res_ok res) then
    throw (Error ("OpenAI HTTP " ++ num_to_string (status res) 0))
  else
    data <- res_json res ;;
    text <- lift (opt_toString
                    "data?.choices?.[0]?.message?.content?.toString"
                    (Some data ?. "choices" ?.[0] ?. "message" ?. "content")) ;;
    match text with
    | Some (String _ _ as text) => ret (Success "openai" (JStr text))
    | _ => throw (Error "OpenAI empty response")
    end.

Definition tryOpenAI (prompt : string) : M outcome :=
  OPENAI_API_KEY <- Deno_env_get "OPENAI_API_KEY" ;;
  match configured OPENAI_API_KEY with
  | None => ret (Failure "openai" "OPENAI_API_KEY not set")
  | Some OPENAI_API_KEY =>
      try_catch (tryOpenAI_try OPENAI_API_KEY prompt)
        (fun error =>
           console_error "OpenAI error:" error ;;;
           ret (Failure "openai" (String_error error)))
  end.

(** *** OpenRouter *)

Definition tryOpenRouter_payload (prompt : string) : json :=
  JObj [("model", JStr "openai/gpt-4o-mini");
        ("messages",
         JArr [JObj [("role", JStr "system");
                     ("content", JStr "You are an expert analyst that produces concise, actionable reports.")];
               JObj [("role", JStr "user"); ("content", JStr prompt)]]);
        ("temperature", JNum 2 1)].

Definition tryOpenRouter_request (OPENROUTER_API_KEY prompt : string) : request :=
  mk_request "https://openrouter.ai/api/v1/chat/completions" "POST"
    [("Authorization", "Bearer " ++ OPENROUTER_API_KEY);
     ("Content-Type", "application/json")]
    (Some (JSON_stringify (tryOpenRouter_payload prompt))).

Definition tryOpenRouter_try (OPENROUTER_API_KEY prompt : string) : M outcome :=
  res <- fetch (tryOpenRouter_request OPENROUTER_API_KEY prompt) ;;
  if negb (res_ok res) then
    throw (Error ("OpenRouter HTTP " ++ num_to_string (status res) 0))
  else
    data <- res_json res ;;
    text <- lift (opt_toString
                    "data?.choices?.[0]?.message?.content?.toString"
                    (Some data ?. "choices" ?.[0] ?. "message" ?. "content")) ;;
    match text with
    | Some (String _ _ as text) => ret (Success "openrouter" (JStr text))
    | _ => throw (Error "OpenRouter empty response")
    end.

Definition tryOpenRouter (prompt : string) : M outcome :=
  OPENROUTER_API_KEY <- Deno_env_get "OPENROUTER_API_KEY" ;;
  match configured OPENROUTER_API_KEY with
  | None => ret (Failure "openrouter" "OPENROUTER_API_KEY not set")
  | Some OPENROUTER_API_KEY =>
      try_catch (tryOpenRouter_try OPENROUTER_API_KEY prompt)
        (fun error =>
           console_error "OpenRouter error:" error ;;;
           ret (Failure "openrouter" (String_error error)))
  end.

(** *** Gemini *)

Definition tryGemini_payload (prompt : string) : json :=
  JObj [("contents",
         JArr [JObj [("role", JStr "user");
                     ("parts", JArr [JObj [("text", JStr prompt)]])]])].

Definition tryGemini_request (GEMINI_KEY prompt : string) : request :=
  mk_request
    ("https://generativelanguage.googleapis.com/v1beta/models/gemini-1.5-flash:generateContent?key="
       ++ GEMINI_KEY)
    "POST"
    [("Content-Type", "application/json")]
    (Some (JSON_stringify (tryGemini_payload prompt))).

Definition tryGemini_try (GEMINI_KEY prompt : string) : M outcome :=
  res <- fetch (tryGemini_request GEMINI_KEY prompt) ;;
  if negb (res_ok res) then
    throw (Error ("Gemini HTTP " ++ num_to_string (status res) 0))
  else
    data <- res_json res ;;
    text <- lift (opt_toString
                    "data?.candidates?.[0]?.content?.parts?.[0]?.text?.toString"
                    (Some data ?. "candidates" ?.[0] ?. "content" ?. "parts"
                       ?.[0] ?. "text")) ;;
    match text with
    | Some (String _ _ as text) => ret (Success "gemini" (JStr text))
    | _ => throw (Error "Gemini empty response")
    end.

Definition tryGemini (prompt : string) : M outcome :=
  GEMINI_KEY <- Deno_env_get "GOOGLE_GEMINI_API_KEY" ;;
  match configured GEMINI_KEY with
  | None => ret (Failure "gemini" "GOOGLE_GEMINI_API_KEY not set")
  | Some GEMINI_KEY =>
      try_catch (tryGemini_try GEMINI_KEY prompt)
        (fun error =>
           console_error "Gemini error:" error ;;;
           ret (Failure "gemini" (String_error error)))
  end.

(** *** HuggingFace *)

Definition tryHuggingFace_payload (prompt : string) : json :=
  JObj [("inputs", JStr prompt);
        ("options", JObj [("wait_for_model", JBool true)])].

Definition tryHuggingFace_request (HF_TOKEN prompt : string) : request :=
  let model := "mistralai/Mixtral-8x7B-Instruct-v0.1" in
  mk_request ("https://api-inference.huggingface.co/models/" ++ model) "POST"
    [("Authorization", "Bearer " ++ HF_TOKEN);
     ("Content-Type", "application/json")]
    (Some (JSON_stringify (tryHuggingFace_payload prompt))).

(** The [if]/[else if] cascade that picks [text] out of the body: the
    value of the first truthy field, else the serialised body.  In each
    branch the field read is the one its condition found truthy, so
    [nullish_or _ JNull] only unwraps it. *)
Definition tryHuggingFace_text (data : json) : json :=
  if Array_isArray data && truthy_opt (get_index0 data ?. "generated_text")
  then nullish_or (get_index0 data ?. "generated_text") JNull
  else if typeof_object data && truthy_opt (Some data ?. "generated_text")
  then nullish_or (Some data ?. "generated_text") JNull
  else if Array_isArray data && truthy_opt (get_index0 data ?. "summary_text")
  then nullish_or (get_index0 data ?. "summary_text") JNull
  else JStr (JSON_stringify data).

Definition tryHuggingFace_try (HF_TOKEN prompt : string) : M outcome :=
  res <- fetch (tryHuggingFace_request HF_TOKEN prompt) ;;
  if negb (res_ok res) then
    throw (Error ("HuggingFace HTTP " ++ num_to_string (status res) 0))
  else
    data <- res_json res ;;
    let text := tryHuggingFace_text data in
    if negb (truthy text) then throw (Error "HuggingFace empty response")
    else ret (Success "huggingface" text).

Definition tryHuggingFace (prompt : string) : M outcome :=
  HF_TOKEN <- Deno_env_get "HUGGING_FACE_ACCESS_TOKEN" ;;
  match configured HF_TOKEN with
  | None => ret (Failure "huggingface" "HUGGING_FACE_ACCESS_TOKEN not set")
  | Some HF_TOKEN =>
      try_catch (tryHuggingFace_try HF_TOKEN prompt)
        (fun error =>
           console_error "HuggingFace error:" error ;;;
           ret (Failure "huggingface" (String_error error)))
  end.

(** *** Replicate *)

Definition tryReplicate_payload (prompt : string) : json :=
  JObj [("input", JObj [("prompt", JStr prompt)])].

Definition tryReplicate_request (REPLICATE_API_KEY prompt : string) : request :=
  mk_request
    "https://api.replicate.com/v1/models/meta/meta-llama-3-8b-instruct/predictions"
    "POST"
    [("Authorization", "Token " ++ REPLICATE_API_KEY);
     ("Content-Type", "application/json")]
    (Some (JSON_stringify (tryReplicate_payload prompt))).

(** The status read [fetch(endpoint, { headers })]. *)
Definition status_request (REPLICATE_API_KEY url : string) : request :=
  mk_request url "GET" [("Authorization", "Token " ++ REPLICATE_API_KEY)] None.

(** [Array.isArray(output) ? output.join("\n") : String(output ?? "")],
    where the separator is the newline character. *)
Definition output_text (output : option json) : result string :=
  match output with
  | Some (JArr items) => Array_join items newline
  | _ => js_to_string (nullish_or output (JStr ""))
  end.

(** The polling loop [for (let i = 0; i < 30; i++) { ... }] followed by
    [throw new Error("Replicate timeout")]; [budget] is [30 - i], the number
    of iterations still allowed. *)
Fixpoint poll (REPLICATE_API_KEY : string) (endpoint : json) (budget : nat)
  : M outcome :=
  match budget with
  | O => throw (Error "Replicate timeout")
  | S budget' =>
      url <- lift (js_to_string endpoint) ;;
      check <- fetch (status_request REPLICATE_API_KEY url) ;;
      body <- res_json check ;;
      st <- member body "status" ;;
      if strict_eq st "succeeded" then
        output <- member body "output" ;;
        text <- lift (output_text output) ;;
        if negb (truthy_string text) then throw (Error "Replicate empty output")
        else ret (Success "replicate" (JStr text))
      else if strict_eq st "failed" || strict_eq st "canceled" then
        s <- lift (interpolate st) ;;
        throw (Error ("Replicate " ++ s))
      else
        sleep 1000 ;;;
        poll REPLICATE_API_KEY endpoint budget'
  end.

Definition tryReplicate_try (REPLICATE_API_KEY prompt : string) : M outcome :=
  res <- fetch (tryReplicate_request REPLICATE_API_KEY prompt) ;;
  if negb (res_ok res) then
    throw (Error ("Replicate HTTP " ++ num_to_string (status res) 0))
  else
    data <- res_json res ;;
    let prediction := data in
    let endpoint := Some prediction ?. "urls" ?. "get" in
    if negb (truthy_opt endpoint) then throw (Error "Replicate missing status URL")
    else poll REPLICATE_API_KEY (nullish_or endpoint JNull) 30.

Definition tryReplicate (prompt : string) : M outcome :=
  REPLICATE_API_KEY <- Deno_env_get "REPLICATE_API_KEY" ;;
  match configured REPLICATE_API_KEY with
  | None => ret (Failure "replicate" "REPLICATE_API_KEY not set")
  | Some REPLICATE_API_KEY =>
      try_catch (tryReplicate_try REPLICATE_API_KEY prompt)
        (fun error =>
           console_error "Replicate error:" error ;;;
           ret (Failure "replicate" (String_error error)))
  end.

(** *** The handler *)

(** An inbound request: its method and what [req.json()] gives. *)
Record http_request := mk_http_request {
  method : string;
  json_body : parsed
}.

Record response := mk_response {
  res_status : Z;
  res_headers : list (string * string);
  res_body : option string
}.

(** [new Response(JSON.stringify(body), { status, headers: { ...corsHeaders,
    "Content-Type": "application/json" } })]. *)
Definition json_response (code : Z) (body : json) : response :=
  mk_response code
    (corsHeaders ++ [("Content-Type", "application/json")])
    (Some (JSON_stringify body)).

Definition req_json (req : http_request) : M json :=
  match json_body req with
  | GoodJson data => ret data
  | BadJson e => throw e
  end.

(** [const { prompt } = v]. *)
Definition destructure_prompt (v : json) : M (option json) :=
  match v with
  | JNull =>
      throw (TypeError
               "Cannot destructure property 'prompt' of '(intermediate value)' as it is null.")
  | _ => ret (get_prop v "prompt")
  end.

(** The negation of [!prompt || typeof prompt !== "string"]: the prompt,
    when it is a non-empty string. *)
Definition usable_prompt (prompt : option json) : option string :=
  match prompt with
  | Some (JStr (String _ _ as s)) => Some s
  | _ => None
  end.

(** [for (const attempt of attempts) { ... }]: the response returned from
    inside the loop, or [results] when the loop runs to its end. *)
Fixpoint for_attempts (attempts : list adapter) (prompt : string)
    (results : list json) : M (response + list json) :=
  match attempts with
  | [] => ret (inr results)
  | attempt :: rest =>
      r <- attempt prompt ;;
      match r with
      | Success provider text =>
          ret (inl (json_response 200
                      (JObj [("provider", JStr provider); ("text", text)])))
      | Failure provider error =>
          for_attempts rest prompt
            (results ++ [JObj [("provider", JStr provider);
                               ("error", JStr error)]])
      end
  end.

(** The handler passed to [serve], over the array [attempts]. *)
Definition serve_with (attempts : list adapter) (req : http_request)
  : M response :=
  if String.eqb (method req) "OPTIONS" then
    ret (mk_response 200 corsHeaders None)
  else
    try_catch
      (parsed <- req_json req ;;
       prompt <- destructure_prompt parsed ;;
       match usable_prompt prompt with
       | None =>
           ret (json_response 400
                  (JObj [("error", JStr "Missing 'prompt' string in body")]))
       | Some prompt =>
           r <- for_attempts attempts prompt [] ;;
           match r with
           | inl early => ret early
           | inr results =>
               ret (json_response 502
                      (JObj [("error", JStr "All providers failed");
                             ("attempts", JArr results)]))
           end
       end)
      (fun error =>
         console_error "ai-report handler error:" error ;;;
         ret (json_response 500
                (JObj [("error", JStr "Unexpected error");
                       ("details", JStr (String_error error))]))).

Definition attempts : list adapter :=
  [tryOpenAI; tryOpenRouter; tryGemini; tryHuggingFace; tryReplicate].

Definition serve (req : http_request) : M response := serve_with attempts req.

End AiReport.

(* ================================================================== *)
(** ** Vocabulary of the statements *)
(* ================================================================== *)

Module Vocabulary.
Import Js Effects AiReport.

(** The five providers, named after their adapters. *)
Inductive provider : Type :=
| OpenAI | OpenRouter | Gemini | HuggingFace | Replicate.

(** The order of the array [attempts]. *)
Definition priority : list provider :=
  [OpenAI; OpenRouter; Gemini; HuggingFace; Replicate].

Definition attempt_of (K : provider) : adapter :=
  match K with
  | OpenAI => tryOpenAI
  | OpenRouter => tryOpenRouter
  | Gemini => tryGemini
  | HuggingFace => tryHuggingFace
  | Replicate => tryReplicate
  end.

(** The [try] block of each adapter, given its credential. *)
Definition try_of (K : provider) : string -> string -> M outcome :=
  match K with
  | OpenAI => tryOpenAI_try
  | OpenRouter => tryOpenRouter_try
  | Gemini => tryGemini_try
  | HuggingFace => tryHuggingFace_try
  | Replicate => tryReplicate_try
  end.

(** The first request each adapter sends, and the payload it serialises. *)
Definition request_of (K : provider) : string -> string -> request :=
  match K with
  | OpenAI => tryOpenAI_request
  | OpenRouter => tryOpenRouter_request
  | Gemini => tryGemini_request
  | HuggingFace => tryHuggingFace_request
  | Replicate => tryReplicate_request
  end.

Definition payload_of (K : provider) : string -> json :=
  match K with
  | OpenAI => tryOpenAI_payload
  | OpenRouter => tryOpenRouter_payload
  | Gemini => tryGemini_payload
  | HuggingFace => tryHuggingFace_payload
  | Replicate => tryReplicate_payload
  end.

(** The [provider] field every outcome of the adapter carries. *)
Definition provider_id (K : provider) : string :=
  match K with
  | OpenAI => "openai"
  | OpenRouter => "openrouter"
  | Gemini => "gemini"
  | HuggingFace => "huggingface"
  | Replicate => "replicate"
  end.

(** The environment variable that holds the adapter's credential. *)
Definition credential_var (K : provider) : string :=
  match K with
  | OpenAI => "OPENAI_API_KEY"
  | OpenRouter => "OPENROUTER_API_KEY"
  | Gemini => "GOOGLE_GEMINI_API_KEY"
  | HuggingFace => "HUGGING_FACE_ACCESS_TOKEN"
  | Replicate => "REPLICATE_API_KEY"
  end.

(** The label of the adapter's [console.error] line. *)
Definition console_label (K : provider) : string :=
  match K with
  | OpenAI => "OpenAI error:"
  | OpenRouter => "OpenRouter error:"
  | Gemini => "Gemini error:"
  | HuggingFace => "HuggingFace error:"
  | Replicate => "Replicate error:"
  end.

(** The name used in the adapter's own error messages. *)
Definition display_name (K : provider) : string :=
  match K with
  | OpenAI => "OpenAI"
  | OpenRouter => "OpenRouter"
  | Gemini => "Gemini"
  | HuggingFace => "HuggingFace"
  | Replicate => "Replicate"
  end.

Definition outcome_provider (o : outcome) : string :=
  match o with
  | Success id _ => id
  | Failure id _ => id
  end.

(** The entry pushed on [results] for a failure. *)
Definition attempt_entry (id reason : string) : json :=
  JObj [("provider", JStr id); ("error", JStr reason)].

(** The world after the events [evs], in order. *)
Definition record_all (evs : list event) (w : World) : World :=
  mk_world (env w) (net w) (log w ++ evs).

(** A world with no credential, a network that rejects every call, and an
    empty log. *)
Definition offline : World :=
  mk_world (fun _ => None)
           (fun _ _ => NetFail (TypeError "error sending request"))
           [].

(** A request other than the preflight, whose JSON body is an object that
    carries the non-empty string [prompt]. *)
Definition carries_prompt (req : http_request) (prompt : string) : Prop :=
  method req <> "OPTIONS" /\
  prompt <> "" /\
  exists props,
    json_body req = GoodJson (JObj props) /\
    assoc "prompt" props = Some (JStr prompt).

Definition post (body : json) : http_request :=
  mk_http_request "POST" (GoodJson body).

(** *** Stub adapters *)

(** A stub returns the outcome assigned to its provider and records that it
    was called. *)
Definition stub (K : provider) (o : outcome) : adapter :=
  fun prompt w => (Ok o, record (EvCalled (provider_id K) prompt) w).

Definition stubs (assign : provider -> outcome) : list adapter :=
  map (fun K => stub K (assign K)) priority.

Definition calls (ks : list provider) (prompt : string) : list event :=
  map (fun K => EvCalled (provider_id K) prompt) ks.

(** The adapters [impl] of the providers [ks], called one after the other
    from the world [w], all return a failure; [entries] are the entries
    pushed on [results] and [w'] is the world after the last one. *)
Inductive fail_in_turn (impl : provider -> adapter) (prompt : string)
  : list provider -> World -> list json -> World -> Prop :=
| fail_none w : fail_in_turn impl prompt [] w [] w
| fail_next K ks w id reason w1 entries w' :
    impl K prompt w = (Ok (Failure id reason), w1) ->
    fail_in_turn impl prompt ks w1 entries w' ->
    fail_in_turn impl prompt (K :: ks) w (attempt_entry id reason :: entries) w'.

(** Only Gemini is configured, and every call is answered with a Gemini
    body that carries [text]. *)
Definition only_gemini (text : string) : World :=
  mk_world
    (fun name =>
       if String.eqb name "GOOGLE_GEMINI_API_KEY" then Some "g" else None)
    (fun _ _ =>
       NetReply (mk_reply 200
         (GoodJson
            (JObj [("candidates",
                    JArr [JObj [("content",
                                 JObj [("parts",
                                        JArr [JObj [("text", JStr text)]])])]])]))))
    [].

(** *** Status reads *)

Definition is_status_read (ev : event) : bool :=
  match ev with
  | EvFetch rq => String.eqb (req_method rq) "GET"
  | _ => false
  end.

Definition status_reads (evs : list event) : nat :=
  List.length (filter is_status_read evs).

(** [adds m n]: run in any world, [m] only appends events to the log, at
    most [n] status reads among them. *)
Definition adds {A} (m : M A) (n : nat) : Prop :=
  forall w, exists evs,
    snd (m w) = record_all evs w /\ status_reads evs <= n.

(** A status other than the three the loop reacts to. *)
Definition nonterminal (st : option json) : Prop :=
  st <> Some (JStr "succeeded") /\
  st <> Some (JStr "failed") /\
  st <> Some (JStr "canceled").

(** A status read that reports a job still pending: any HTTP status, a JSON
    body other than [null], a non-terminal [status] (or none). *)
Definition reports_pending (fr : fetch_result) : Prop :=
  exists r body,
    fr = NetReply r /\ payload r = GoodJson body /\ body <> JNull /\
    nonterminal (get_prop body "status").

(** The submission was accepted: the credential [key] is configured and the
    first call gets a 2xx reply whose body carries the status URL [url]. *)
Definition accepted (w : World) (key prompt url : string) : Prop :=
  configured (env w "REPLICATE_API_KEY") = Some key /\
  url <> "" /\
  exists r data,
    net w (log w) (tryReplicate_request key prompt) = NetReply r /\
    res_ok r = true /\
    payload r = GoodJson data /\
    Some data ?. "urls" ?. "get" = Some (JStr url).

(** One uneventful turn of the polling loop. *)
Definition turn (key url : string) : list event :=
  [EvFetch (status_request key url); EvSleep 1000].

Fixpoint turns (n : nat) (key url : string) : list event :=
  match n with
  | O => []
  | S n' => (turn key url ++ turns n' key url)%list
  end.

(** *** Worlds for Replicate *)

Definition prediction_url : string :=
  "https://api.replicate.com/v1/predictions/p1".

(** Only Replicate is configured; the submission is accepted with a status
    URL, and [answer] decides each status read from the events so far. *)
Definition replicate_only (answer : list event -> fetch_result) : World :=
  mk_world
    (fun name => if String.eqb name "REPLICATE_API_KEY" then Some "r8" else None)
    (fun h rq =>
       if String.eqb (req_method rq) "POST" then
         NetReply (mk_reply 201
           (GoodJson (JObj [("id", JStr "p1");
                            ("urls", JObj [("get", JStr prediction_url)])])))
       else answer h)
    [].

(** Every status read is answered 404 with an error body. *)
Definition stalled : World :=
  replicate_only
    (fun _ => NetReply (mk_reply 404
                (GoodJson (JObj [("detail", JStr "Not found")])))).

(** The job is processing for 29 reads and has succeeded at the 30th. *)
Definition slow (output : json) : World :=
  replicate_only
    (fun h =>
       if Nat.ltb (status_reads h) 29 then
         NetReply (mk_reply 200 (GoodJson (JObj [("status", JStr "processing")])))
       else
         NetReply (mk_reply 200
           (GoodJson (JObj [("status", JStr "succeeded"); ("output", output)])))).

(** *** Responses that carry text *)

(** Every credential is set and every call gets the reply [r]. *)
Definition always_answers (r : reply) : World :=
  mk_world (fun _ => Some "k") (fun _ _ => NetReply r) [].

(** The adapter of [K] is configured with [key] and its request gets a 2xx
    reply with the JSON body [data]. *)
Definition answered (w : World) (K : provider) (key prompt : string)
    (data : json) : Prop :=
  configured (env w (credential_var K)) = Some key /\
  exists r,
    net w (log w) (request_of K key prompt) = NetReply r /\
    res_ok r = true /\
    payload r = GoodJson data.

(** The chat providers: the text is at a fixed place of the body. *)
Definition chat_providers : list provider := [OpenAI; OpenRouter; Gemini].

(** The place of the text in the body of a chat provider (the other two
    adapters have no single place). *)
Definition text_place (K : provider) (data : json) : option json :=
  match K with
  | OpenAI | OpenRouter =>
      Some data ?. "choices" ?.[0] ?. "message" ?. "content"
  | Gemini =>
      Some data ?. "candidates" ?.[0] ?. "content" ?. "parts" ?.[0] ?. "text"
  | HuggingFace | Replicate => None
  end.

(** The expression whose [toString] the adapter calls on that place. *)
Definition text_call (K : provider) : string :=
  match K with
  | Gemini => "data?.candidates?.[0]?.content?.parts?.[0]?.text?.toString"
  | _ => "data?.choices?.[0]?.message?.content?.toString"
  end.

(** Nothing, [null] or the empty string. *)
Definition blank (v : option json) : Prop :=
  v = None \/ v = Some JNull \/ v = Some (JStr "").

(** The shapes in which a HuggingFace body carries the text [s]: the
    [generated_text] of the first element of an array, the
    [generated_text] of an object, or the [summary_text] of the first
    element of an array whose [generated_text] is absent or falsy. *)
Inductive hf_carries : json -> string -> Prop :=
| hf_array_generated first rest s :
    get_prop first "generated_text" = Some (JStr s) ->
    hf_carries (JArr (first :: rest)) s
| hf_object_generated props s :
    assoc "generated_text" props = Some (JStr s) ->
    hf_carries (JObj props) s
| hf_array_summary first rest s :
    truthy_opt (get_prop first "generated_text") = false ->
    get_prop first "summary_text" = Some (JStr s) ->
    hf_carries (JArr (first :: rest)) s.

(** A HuggingFace body with none of the fields the adapter looks for. *)
Definition hf_unrecognised (data : json) : Prop :=
  get_prop data "generated_text" = None /\
  forall first rest,
    data = JArr (first :: rest) ->
    get_prop first "generated_text" = None /\
    get_prop first "summary_text" = None.

(** The shapes in which a Replicate [output] carries the text [s]: a
    string, or an array of string segments joined by newlines. *)
Inductive output_carries : option json -> string -> Prop :=
| output_string s : output_carries (Some (JStr s)) s
| output_segments segs :
    output_carries (Some (JArr (map JStr segs))) (String.concat newline segs).

(** An [output] with no text: absent, [null], empty string, empty array. *)
Definition output_blank (v : option json) : Prop :=
  blank v \/ v = Some (JArr []).

(** The submission is accepted, the first [n] status reads report a
    pending job, and the next one, still among the 30 the loop makes,
    reports succeeded with the JSON body [body]. *)
Definition succeeded_after (w : World) (key prompt url : string) (n : nat)
    (body : json) : Prop :=
  accepted w key prompt url /\
  n < 30 /\
  (forall evs,
      status_reads evs < n ->
      reports_pending (net w (log w ++ evs) (status_request key url))) /\
  exists r,
    (forall evs,
        status_reads evs = n ->
        net w (log w ++ evs) (status_request key url) = NetReply r) /\
    payload r = GoodJson body /\
    get_prop body "status" = Some (JStr "succeeded").

(** *** Payload inspection *)

(** The content of the first message whose role is [system]. *)
Definition system_instruction (p : json) : option json :=
  match get_prop p "messages" with
  | Some (JArr msgs) =>
      match find (fun m => strict_eq (get_prop m "role") "system") msgs with
      | Some m => get_prop m "content"
      | None => None
      end
  | _ => None
  end.

(** Every property name that occurs in a value, at any depth. *)
Fixpoint json_keys (v : json) : list string :=
  match v with
  | JArr items =>
      (fix each (l : list json) : list string :=
         match l with
         | [] => []
         | x :: l' => (json_keys x ++ each l')%list
         end) items
  | JObj kvs =>
      (fix each (l : list (string * json)) : list string :=
         match l with
         | [] => []
         | (k, x) :: l' => (k :: json_keys x ++ each l')%list
         end) kvs
  | _ => []
  end.

(** Every leaf of a value that is not a container, left to right. *)
Fixpoint json_leaves (v : json) : list json :=
  match v with
  | JArr items =>
      (fix each (l : list json) : list json :=
         match l with
         | [] => []
         | x :: l' => (json_leaves x ++ each l')%list
         end) items
  | JObj kvs =>
      (fix each (l : list (string * json)) : list json :=
         match l with
         | [] => []
         | (_, x) :: l' => (json_leaves x ++ each l')%list
         end) kvs
  | leaf => [leaf]
  end.

(** The job is processing for [n] status reads; from then on every read
    is answered with the body [final]. *)
Definition settles_after (n : nat) (final : json) : World :=
  replicate_only
    (fun h =>
       if Nat.ltb (status_reads h) n then
         NetReply (mk_reply 200 (GoodJson (JObj [("status", JStr "processing")])))
       else NetReply (mk_reply 200 (GoodJson final))).

(** Every credential is set; the four synchronous providers answer 500,
    Replicate accepts the submission and reports a pending job at every
    status read. *)
Definition worst_case : World :=
  mk_world
    (fun _ => Some "k")
    (fun _ rq =>
       if String.eqb (req_method rq) "GET" then
         NetReply (mk_reply 200 (GoodJson (JObj [("status", JStr "starting")])))
       else if String.eqb (req_url rq)
                 "https://api.replicate.com/v1/models/meta/meta-llama-3-8b-instruct/predictions"
       then
         NetReply (mk_reply 201
           (GoodJson (JObj [("urls", JObj [("get", JStr prediction_url)])])))
       else
         NetReply (mk_reply 500 (GoodJson (JObj [("error", JStr "overloaded")]))))
    [].

(** *** Responses *)

(** What every response of the handler has: the two CORS headers, one of
    the four status codes, and, unless the request is the preflight, the
    JSON content type and a serialised object as body. *)
Definition well_formed_response (req : http_request) (resp : response) : Prop :=
  In ("Access-Control-Allow-Origin", "*") (res_headers resp) /\
  In ("Access-Control-Allow-Headers",
      "authorization, x-client-info, apikey, content-type") (res_headers resp) /\
  In (res_status resp) [200; 400; 500; 502]%Z /\
  (method req <> "OPTIONS" ->
   In ("Content-Type", "application/json") (res_headers resp) /\
   exists props, res_body resp = Some (JSON_stringify (JObj props))).

(** *** Cost of a run *)

Definition is_fetch (ev : event) : bool :=
  match ev with EvFetch _ => true | _ => false end.

(** The number of [fetch] calls among the events. *)
Definition network_calls (evs : list event) : nat :=
  List.length (filter is_fetch evs).

(** The total of the timer delays among the events, in milliseconds. *)
Fixpoint delay_ms (evs : list event) : Z :=
  match evs with
  | [] => 0
  | EvSleep ms :: rest => ms + delay_ms rest
  | _ :: rest => delay_ms rest
  end.

(** [spends m calls ms]: run in any world, [m] only appends events to the
    log, with at most [calls] network calls and at most [ms] milliseconds
    of timer delay among them. *)
Definition spends {A} (m : M A) (calls : nat) (ms : Z) : Prop :=
  forall w, exists evs,
    snd (m w) = record_all evs w /\
    network_calls evs <= calls /\
    (delay_ms evs <= ms)%Z.

(** The adapters that answer from one request. *)
Definition synchronous : list provider :=
  [OpenAI; OpenRouter; Gemini; HuggingFace].

End Vocabulary.

(* ================================================================== *)
(** ** The page that calls the function *)
(* ================================================================== *)

(** The [Index] component: the state hooks [prompt], [loading], [output]
    and the [analyze] handler of the button.  The page calls the edge
    function through [supabase.functions.invoke] and, when that fails,
    tries [window.puter.ai.chat]. *)
Module Frontend.
Import Js.

(** *** String.prototype.trim *)

(** Strings are sequences of UTF-8 bytes; the white space and line
    terminators that [trim] removes are the code points U+0009 to U+000D,
    U+0020, U+00A0, U+1680, U+2000 to U+200A, U+2028, U+2029, U+202F,
    U+205F, U+3000 and U+FEFF, of one, two or three bytes. *)
Definition ws1 (a : ascii) : bool :=
  let x := nat_of_ascii a in
  (Nat.leb 9 x && Nat.leb x 13) || Nat.eqb x 32.

Definition ws2 (a b : ascii) : bool :=
  Nat.eqb (nat_of_ascii a) 194 && Nat.eqb (nat_of_ascii b) 160.

Definition ws3 (a b c : ascii) : bool :=
  let x := nat_of_ascii a in
  let y := nat_of_ascii b in
  let z := nat_of_ascii c in
  (Nat.eqb x 225 && Nat.eqb y 154 && Nat.eqb z 128)
  || (Nat.eqb x 226 && Nat.eqb y 128
      && ((Nat.leb 128 z && Nat.leb z 138)
          || Nat.eqb z 168 || Nat.eqb z 169 || Nat.eqb z 175))
  || (Nat.eqb x 226 && Nat.eqb y 129 && Nat.eqb z 159)
  || (Nat.eqb x 227 && Nat.eqb y 128 && Nat.eqb z 128)
  || (Nat.eqb x 239 && Nat.eqb y 187 && Nat.eqb z 191).

Fixpoint trimStart (s : string) : string :=
  match s with
  | EmptyString => EmptyString
  | String a r1 =>
      if ws1 a then trimStart r1
      else
        match r1 with
        | EmptyString => s
        | String b r2 =>
            if ws2 a b then trimStart r2
            else
              match r2 with
              | EmptyString => s
              | String c r3 => if ws3 a b c then trimStart r3 else s
              end
        end
  end.

Fixpoint reverse (s acc : string) : string :=
  match s with
  | EmptyString => acc
  | String a r => reverse r (String a acc)
  end.

(** [trimStart] on the reversed bytes: a code point is met last byte
    first. *)
Fixpoint trimStart_reversed (s : string) : string :=
  match s with
  | EmptyString => EmptyString
  | String a r1 =>
      if ws1 a then trimStart_reversed r1
      else
        match r1 with
        | EmptyString => s
        | String b r2 =>
            if ws2 b a then trimStart_reversed r2
            else
              match r2 with
              | EmptyString => s
              | String c r3 => if ws3 c b a then trimStart_reversed r3 else s
              end
        end
  end.

Definition trimEnd (s : string) : string :=
  reverse (trimStart_reversed (reverse s EmptyString)) EmptyString.

Definition trim (s : string) : string := trimEnd (trimStart s).

(** *** The page and its surroundings *)

(** What [supabase.functions.invoke] gives: a rejection, or the object
    [{ data, error }] ([null] data is [JNull], [null] error is [None]). *)
Inductive invoke_result : Type :=
| InvokeRejects (e : js_error)
| InvokeSettles (data : json) (error : option js_error).

(** What [puter.ai.chat] gives: a rejection or a value ([undefined] is
    [None]); the values are those of [json], converted to text as such. *)
Inductive chat_result : Type :=
| ChatRejects (e : js_error)
| ChatReturns (text : option json).

Inductive ui_event : Type :=
| Invoked (fn : string) (options : json)
| Chatted (prompt : string) (options : json)
| ToastError (message : string)
| ToastSuccess (message : string)
| Logged (label : option string) (e : js_error).

(** The component's state, the two services it can reach ([puter_chat] is
    [None] when [window.puter?.ai?.chat] is not there) and what it has
    done so far. *)
Record Page := mk_page {
  prompt : string;
  loading : bool;
  output : json;
  invoke : string -> json -> invoke_result;
  puter_chat : option (string -> json -> chat_result);
  trail : list ui_event
}.

Definition U (A : Type) : Type := Page -> result A * Page.

Definition ret {A} (a : A) : U A := fun p => (Ok a, p).
Definition throw {A} (e : js_error) : U A := fun p => (Throw e, p).
Definition lift {A} (r : result A) : U A := fun p => (r, p).

Definition bind {A B} (m : U A) (k : A -> U B) : U B :=
  fun p =>
    match m p with
    | (Ok a, p') => k a p'
    | (Throw e, p') => (Throw e, p')
    end.

Definition try_catch {A} (m : U A) (h : js_error -> U A) : U A :=
  fun p =>
    match m p with
    | (Ok a, p') => (Ok a, p')
    | (Throw e, p') => h e p'
    end.

(** [try { m } finally { f }], for an [f] that does not throw. *)
Definition try_finally {A} (m : U A) (f : Page -> Page) : U A :=
  fun p => let (r, p') := m p in (r, f p').

Notation "x <- m ;; k" := (bind m (fun x => k))
  (at level 61, m at next level, right associativity).
Notation "m ;;; k" := (bind m (fun _ => k))
  (at level 61, right associativity).

Definition note (ev : ui_event) (p : Page) : Page :=
  mk_page (prompt p) (loading p) (output p) (invoke p) (puter_chat p)
    (trail p ++ [ev]).

Definition with_loading (b : bool) (p : Page) : Page :=
  mk_page (prompt p) b (output p) (invoke p) (puter_chat p) (trail p).

Definition with_output (v : json) (p : Page) : Page :=
  mk_page (prompt p) (loading p) v (invoke p) (puter_chat p) (trail p).

Definition setLoading (b : bool) : U unit := fun p => (Ok tt, with_loading b p).
Definition setOutput (v : json) : U unit := fun p => (Ok tt, with_output v p).

Definition toast_error (message : string) : U unit :=
  fun p => (Ok tt, note (ToastError message) p).
Definition toast_success (message : string) : U unit :=
  fun p => (Ok tt, note (ToastSuccess message) p).
Definition console_error (label : option string) (e : js_error) : U unit :=
  fun p => (Ok tt, note (Logged label e) p).

(** [await supabase.functions.invoke(fn, options)]. *)
Definition functions_invoke (fn : string) (options : json)
  : U (json * option js_error) :=
  fun p =>
    match invoke p fn options with
    | InvokeRejects e => (Throw e, note (Invoked fn options) p)
    | InvokeSettles data error => (Ok (data, error), note (Invoked fn options) p)
    end.

(** [await p.ai.chat(prompt, options)]. *)
Definition ai_chat (chat : string -> json -> chat_result) (text : string)
    (options : json) : U (option json) :=
  fun p =>
    match chat text options with
    | ChatRejects e => (Throw e, note (Chatted text options) p)
    | ChatReturns v => (Ok v, note (Chatted text options) p)
    end.

(** *** analyze *)

Definition analyze : U unit :=
  fun page =>
    let prompt := prompt page in
    (if negb (truthy_string (trim prompt)) then
       toast_error "Please enter some text to analyze"
     else
       setLoading true ;;;
       setOutput (JStr "") ;;;
       try_finally
         (try_catch
            (r <- functions_invoke "ai-report"
                    (JObj [("body", JObj [("prompt", JStr prompt)])]) ;;
             let (data, error) := r in
             match error with
             | Some error => throw error
             | None =>
                 setOutput (if truthy_opt (Some data ?. "text")
                            then AiReport.nullish_or (Some data ?. "text") JNull
                            else JStr "") ;;;
                 via <- lift (js_to_string
                                (AiReport.nullish_or (Some data ?. "provider")
                                   (JStr "provider"))) ;;
                 toast_success ("Analyzed via " ++ via)
             end)
            (fun err =>
               console_error None err ;;;
               try_catch
                 (fun page' =>
                    match puter_chat page' with
                    | Some chat =>
                        (text <- ai_chat chat prompt
                                   (JObj [("model", JStr "gpt-4.1-nano")]) ;;
                         if truthy_opt text then
                           s <- lift (match text with
                                      | Some (JStr s) => Ok s
                                      | _ => js_to_string
                                               (AiReport.nullish_or text JNull)
                                      end) ;;
                           setOutput (JStr s) ;;;
                           toast_success "Analyzed via Puter.js fallback"
                         else throw err) page'
                    | None => throw err page'
                    end)
                 (fun fallbackErr =>
                    console_error (Some "Puter.js fallback failed:") fallbackErr ;;;
                    toast_error (if truthy_string (err_message err)
                                 then err_message err
                                 else "Analysis failed"))))
         (with_loading false)) page.

End Frontend.

(** *** Vocabulary of the statements about the page *)

Module PageVocabulary.
Import Js Frontend.

(** The options [analyze] passes to the two services. *)
Definition invoke_options (text : string) : json :=
  JObj [("body", JObj [("prompt", JStr text)])].

Definition chat_options : json := JObj [("model", JStr "gpt-4.1-nano")].

Definition is_toast (ev : ui_event) : bool :=
  match ev with
  | ToastError _ | ToastSuccess _ => true
  | _ => false
  end.

Definition is_chat (ev : ui_event) : bool :=
  match ev with Chatted _ _ => true | _ => false end.

Definition toasts (evs : list ui_event) : nat :=
  List.length (filter is_toast evs).

Definition chats (evs : list ui_event) : nat :=
  List.length (filter is_chat evs).

(** The page after the events [evs], with [loading] and [output] set. *)
Definition settled (p : Page) (out : json) (evs : list ui_event) : Page :=
  mk_page (prompt p) false out (invoke p) (puter_chat p) (trail p ++ evs).

(** The call of the edge function fails with [err]: the promise rejects
    with it, or settles with it as [error]. *)
Definition invoke_fails (p : Page) (err : js_error) : Prop :=
  invoke p "ai-report" (invoke_options (prompt p)) = InvokeRejects err \/
  exists data,
    invoke p "ai-report" (invoke_options (prompt p)) =
      InvokeSettles data (Some err).

(** The message of the error toast. *)
Definition shown_message (err : js_error) : string :=
  match err_message err with
  | EmptyString => "Analysis failed"
  | message => message
  end.

(** A fresh page with the text [text] typed in. *)
Definition typed (text : string)
    (invoke : string -> json -> invoke_result)
    (puter_chat : option (string -> json -> chat_result)) : Page :=
  mk_page text false (JStr "") invoke puter_chat [].

(** The edge function answers 200 with [data]. *)
Definition answers (data : json) : string -> json -> invoke_result :=
  fun _ _ => InvokeSettles data None.

(** The edge function answers with a non-2xx status. *)
Definition refuses : string -> json -> invoke_result :=
  fun _ _ =>
    InvokeSettles JNull
      (Some (mk_error "FunctionsHttpError"
               "Edge Function returned a non-2xx status code")).

(** Tab, line feed, space and a no-break space. *)
Definition blanks : string :=
  String (ascii_of_nat 9)
    (String (ascii_of_nat 10)
       (String (ascii_of_nat 32)
          (String (ascii_of_nat 194) (String (ascii_of_nat 160) EmptyString)))).

(** How the Puter fallback comes to nothing after the error [err], and
    what it leaves in the trail: Puter is not there; the chat rejects; the
    chat returns nothing truthy; or its answer cannot be turned into text. *)
Inductive fallback_fails (p : Page) (err : js_error) : list ui_event -> Prop :=
| puter_absent :
    puter_chat p = None ->
    fallback_fails p err [Logged (Some "Puter.js fallback failed:") err]
| chat_rejects chat e :
    puter_chat p = Some chat ->
    chat (prompt p) chat_options = ChatRejects e ->
    fallback_fails p err
      [Chatted (prompt p) chat_options;
       Logged (Some "Puter.js fallback failed:") e]
| chat_says_nothing chat v :
    puter_chat p = Some chat ->
    chat (prompt p) chat_options = ChatReturns v ->
    truthy_opt v = false ->
    fallback_fails p err
      [Chatted (prompt p) chat_options;
       Logged (Some "Puter.js fallback failed:") err]
| chat_answer_unprintable chat v e :
    puter_chat p = Some chat ->
    chat (prompt p) chat_options = ChatReturns (Some v) ->
    truthy v = true ->
    js_to_string v = Throw e ->
    fallback_fails p err
      [Chatted (prompt p) chat_options;
       Logged (Some "Puter.js fallback failed:") e].

(** The inner [try]/[catch] of [analyze]: the Puter fallback for the
    prompt [text] after the error [err]. *)
Definition fallback (text : string) (err : js_error) : U unit :=
  try_catch
    (fun page' =>
       match puter_chat page' with
       | Some chat =>
           (answer <- ai_chat chat text chat_options ;;
            if truthy_opt answer then
              s <- lift (match answer with
                         | Some (JStr s) => Ok s
                         | _ => js_to_string (AiReport.nullish_or answer JNull)
                         end) ;;
              setOutput (JStr s) ;;;
              toast_success "Analyzed via Puter.js fallback"
            else throw err) page'
       | None => throw err page'
       end)
    (fun fallbackErr =>
       console_error (Some "Puter.js fallback failed:") fallbackErr ;;;
       toast_error (if truthy_string (err_message err)
                    then err_message err
                    else "Analysis failed")).

(** The page [p] after more events, with [output] set. *)
Definition shows (p : Page) (out : json) (evs : list ui_event) : Page :=
  mk_page (prompt p) (loading p) out (invoke p) (puter_chat p) (trail p ++ evs).

End PageVocabulary.

(* ================================================================== *)
(** ** Properties *)
(* ================================================================== *)

Import Js Effects AiReport Vocabulary.

(** *** Bookkeeping on worlds *)

Lemma record_all_nil w : record_all [] w = w.
Proof. destruct w; unfold record_all; simpl. now rewrite app_nil_r. Qed.

Lemma record_all_record ev evs w :
  record_all evs (record ev w) = record_all (ev :: evs) w.
Proof.
  unfold record_all, record; simpl. now rewrite <- app_assoc.
Qed.

Lemma record_record_all ev evs w :
  record ev (record_all evs w) = record_all (evs ++ [ev]) w.
Proof.
  unfold record_all, record; simpl. now rewrite <- app_assoc.
Qed.

Lemma record_all_app evs1 evs2 w :
  record_all evs2 (record_all evs1 w) = record_all (evs1 ++ evs2) w.
Proof.
  unfold record_all; simpl. now rewrite <- app_assoc.
Qed.

(** The array [attempts] lists the adapters in [priority] order. *)
Lemma attempts_priority : attempts = map attempt_of priority.
Proof. reflexivity. Qed.

(** *** Credentials *)

(** C7: an adapter whose credential is absent from the environment returns
    at once a failure whose reason names the missing variable, and leaves
    the world as it found it: no network call, no log line. *)
Theorem missing_credential_fails_offline (K : provider) (prompt : string) (w : World) :
  env w (credential_var K) = None ->
  attempt_of K prompt w =
    (Ok (Failure (provider_id K) (credential_var K ++ " not set")), w).
Proof.
  intros Habsent.
  destruct K; simpl in Habsent |- *;
    [ unfold tryOpenAI | unfold tryOpenRouter | unfold tryGemini
    | unfold tryHuggingFace | unfold tryReplicate ];
    unfold bind, Deno_env_get; rewrite Habsent; reflexivity.
Qed.

Lemma missing_credential_fails_offline_witness :
  env offline (credential_var Gemini) = None /\
  attempt_of Gemini "why is the build red?" offline =
    (Ok (Failure "gemini" "GOOGLE_GEMINI_API_KEY not set"), offline).
Proof.
  split; [reflexivity |].
  apply (missing_credential_fails_offline Gemini "why is the build red?" offline).
  reflexivity.
Defined.

(** *** The adapter boundary *)

(** Every adapter is its credential check followed by its [try] block under
    a [catch] that logs the error and turns it into a failure. *)
Lemma attempt_of_unfold (K : provider) (prompt : string) (w : World) :
  attempt_of K prompt w =
    match configured (env w (credential_var K)) with
    | None => (Ok (Failure (provider_id K) (credential_var K ++ " not set")), w)
    | Some key =>
        try_catch (try_of K key prompt)
          (fun error =>
             console_error (console_label K) error ;;;
             ret (Failure (provider_id K) (String_error error))) w
    end.
Proof.
  destruct K; simpl;
    [ unfold tryOpenAI | unfold tryOpenRouter | unfold tryGemini
    | unfold tryHuggingFace | unfold tryReplicate ];
    unfold bind at 1; unfold Deno_env_get;
    match goal with |- context [configured ?v] => destruct (configured v) end;
    reflexivity.
Qed.

(** C4: an adapter always returns an outcome, whatever the environment and
    the network do, and an error thrown inside its [try] block comes back
    as a failure whose reason is [String(error)]. *)
Theorem adapters_never_throw (K : provider) (prompt : string) (w : World) :
  (exists o w', attempt_of K prompt w = (Ok o, w')) /\
  (forall key e w1,
      configured (env w (credential_var K)) = Some key ->
      try_of K key prompt w = (Throw e, w1) ->
      attempt_of K prompt w =
        (Ok (Failure (provider_id K) (String_error e)),
         record (EvConsoleError (console_label K) e) w1)).
Proof.
  rewrite attempt_of_unfold. split.
  - destruct (configured (env w (credential_var K))) as [key|].
    + unfold try_catch, bind, console_error, ret.
      destruct (try_of K key prompt w) as [[o|e] w1];
        do 2 eexists; reflexivity.
    + do 2 eexists; reflexivity.
  - intros key e w1 Hkey Hthrow. rewrite Hkey. unfold try_catch.
    rewrite Hthrow. reflexivity.
Qed.

(** With a key but no network, the rejected call comes back as a failure. *)
Lemma adapters_never_throw_witness :
  let w := mk_world (fun _ => Some "k") (net offline) [] in
  tryOpenAI "logs" w =
    (Ok (Failure "openai" "TypeError: error sending request"),
     record (EvConsoleError "OpenAI error:" (TypeError "error sending request"))
       (record (EvFetch (tryOpenAI_request "k" "logs")) w)).
Proof.
  intros w.
  apply (proj2 (adapters_never_throw OpenAI "logs" w) "k"
           (TypeError "error sending request")
           (record (EvFetch (tryOpenAI_request "k" "logs")) w)).
  - reflexivity.
  - reflexivity.
Defined.

(** *** The request boundary *)

(** C9: a request (other than the preflight) whose body is not JSON gets the
    500 response that carries the parse error; the only effect is the
    handler's log line, whatever the adapters are. *)
Theorem unparseable_body_is_500 (adapters : list adapter) (req : http_request)
    (e : js_error) (w : World) :
  method req <> "OPTIONS" ->
  json_body req = BadJson e ->
  serve_with adapters req w =
    (Ok (json_response 500
           (JObj [("error", JStr "Unexpected error");
                  ("details", JStr (String_error e))])),
     record (EvConsoleError "ai-report handler error:" e) w).
Proof.
  intros Hmethod Hbody. unfold serve_with.
  apply String.eqb_neq in Hmethod. rewrite Hmethod.
  unfold try_catch, bind, req_json. rewrite Hbody. reflexivity.
Qed.

Lemma unparseable_body_is_500_witness :
  serve (mk_http_request "POST" (BadJson (SyntaxError "Unexpected end of JSON input")))
        offline =
    (Ok (json_response 500
           (JObj [("error", JStr "Unexpected error");
                  ("details", JStr "SyntaxError: Unexpected end of JSON input")])),
     record (EvConsoleError "ai-report handler error:"
               (SyntaxError "Unexpected end of JSON input")) offline).
Proof.
  apply (unparseable_body_is_500 attempts
           (mk_http_request "POST" (BadJson (SyntaxError "Unexpected end of JSON input")))
           (SyntaxError "Unexpected end of JSON input") offline).
  - discriminate.
  - reflexivity.
Defined.

(** Validation: a request (other than the preflight) whose JSON body is
    not [null] and has no [prompt], a [prompt] that is not a string, or an
    empty one, gets the 400 response; the world is untouched, whatever the
    adapters are. *)
Lemma unusable_prompt_is_400 (adapters : list adapter) (req : http_request)
    (body : json) (w : World) :
  method req <> "OPTIONS" ->
  json_body req = GoodJson body ->
  body <> JNull ->
  (forall s, get_prop body "prompt" = Some (JStr s) -> s = "") ->
  serve_with adapters req w =
    (Ok (json_response 400
           (JObj [("error", JStr "Missing 'prompt' string in body")])),
     w).
Proof.
  intros Hmethod Hbody Hnonnull Hprompt. unfold serve_with.
  apply String.eqb_neq in Hmethod. rewrite Hmethod.
  unfold try_catch, bind, req_json. rewrite Hbody. simpl.
  assert (Hd : destructure_prompt body w = (Ok (get_prop body "prompt"), w)).
  { destruct body; try reflexivity. contradiction. }
  rewrite Hd.
  assert (Hu : usable_prompt (get_prop body "prompt") = None).
  { destruct (get_prop body "prompt") as [[| | | s | |]|]; try reflexivity.
    destruct s; [reflexivity |]. specialize (Hprompt _ eq_refl). discriminate. }
  rewrite Hu. reflexivity.
Qed.

Example unusable_prompt_is_400_number :
  serve (post (JObj [("prompt", JNum 7 0)])) offline =
    (Ok (json_response 400
           (JObj [("error", JStr "Missing 'prompt' string in body")])),
     offline).
Proof.
  apply (unusable_prompt_is_400 attempts (post (JObj [("prompt", JNum 7 0)]))
           (JObj [("prompt", JNum 7 0)]) offline).
  - discriminate.
  - reflexivity.
  - discriminate.
  - intros s H. discriminate H.
Defined.

(** C8: a body without a [prompt] should get the 400 response and reach no
    adapter.  The JSON body [null] has no [prompt], yet the handler answers
    it with the 500 response: destructuring [null] throws, and the error
    lands in the catch-all before the validation is reached. *)
Theorem null_body_is_500 :
  serve (post JNull) offline =
    (Ok (json_response 500
           (JObj [("error", JStr "Unexpected error");
                  ("details", JStr "TypeError: Cannot destructure property 'prompt' of '(intermediate value)' as it is null.")])),
     record (EvConsoleError "ai-report handler error:"
               (TypeError "Cannot destructure property 'prompt' of '(intermediate value)' as it is null."))
            offline).
Proof. reflexivity. Qed.

(** *** The fallback loop *)

Lemma for_attempts_failure (a : adapter) rest prompt results w id reason w1 :
  a prompt w = (Ok (Failure id reason), w1) ->
  for_attempts (a :: rest) prompt results w =
    for_attempts rest prompt (results ++ [attempt_entry id reason]) w1.
Proof. intros Ha. simpl. unfold bind at 1. rewrite Ha. reflexivity. Qed.

Lemma for_attempts_success (a : adapter) rest prompt results w id text w1 :
  a prompt w = (Ok (Success id text), w1) ->
  for_attempts (a :: rest) prompt results w =
    (Ok (inl (json_response 200
                (JObj [("provider", JStr id); ("text", text)]))), w1).
Proof. intros Ha. simpl. unfold bind at 1. rewrite Ha. reflexivity. Qed.

(** With a usable prompt the handler is the loop under the catch-all. *)
Lemma serve_with_prompt (adapters : list adapter) req prompt w :
  carries_prompt req prompt ->
  serve_with adapters req w =
    try_catch
      (r <- for_attempts adapters prompt [] ;;
       match r with
       | inl early => ret early
       | inr results =>
           ret (json_response 502
                  (JObj [("error", JStr "All providers failed");
                         ("attempts", JArr results)]))
       end)
      (fun error =>
         console_error "ai-report handler error:" error ;;;
         ret (json_response 500
                (JObj [("error", JStr "Unexpected error");
                       ("details", JStr (String_error error))]))) w.
Proof.
  intros (Hmethod & Hne & props & Hbody & Hprompt).
  unfold serve_with. apply String.eqb_neq in Hmethod. rewrite Hmethod.
  unfold try_catch, bind at 1 2, req_json. rewrite Hbody. simpl.
  rewrite Hprompt. destruct prompt as [|c s]; [contradiction | reflexivity].
Qed.

Lemma stubs_run (assign : provider -> outcome) prompt K id text after :
  assign K = Success id text ->
  forall before results w,
    (forall J, In J before -> exists id' reason, assign J = Failure id' reason) ->
    for_attempts (map (fun J => stub J (assign J)) (before ++ K :: after))
      prompt results w =
      (Ok (inl (json_response 200
                  (JObj [("provider", JStr id); ("text", text)]))),
       record_all (calls (before ++ [K]) prompt) w).
Proof.
  intros HK. induction before as [|J before IH]; intros results w Hfail.
  - simpl. unfold bind, stub. rewrite HK. reflexivity.
  - destruct (Hfail J (or_introl eq_refl)) as (id' & reason & HJ).
    simpl. unfold bind at 1. unfold stub at 1. rewrite HJ.
    rewrite IH by (intros J' HJ'; apply Hfail; now right).
    now rewrite record_all_record.
Qed.

(** Adapters that fail in turn are passed over, their entries collected. *)
Lemma for_attempts_fail_in_turn (impl : provider -> adapter) prompt ks rest :
  forall w entries w1 results,
    fail_in_turn impl prompt ks w entries w1 ->
    for_attempts (map impl ks ++ rest) prompt results w =
      for_attempts rest prompt (results ++ entries) w1.
Proof.
  induction ks as [|K ks IH]; intros w entries w1 results Hrun;
    inversion Hrun as [| K' ks' w' id reason w2 entries' w3 Hhead Htail]; subst.
  - now rewrite app_nil_r.
  - simpl map. simpl app.
    rewrite (for_attempts_failure _ _ _ _ _ _ _ _ Hhead).
    rewrite (IH _ _ _ _ Htail). now rewrite <- app_assoc.
Qed.
(** *** What the [try] blocks return *)

(** Case analysis on every [match] and [if] met while running a block. *)
Ltac run_cases H :=
  repeat match type of H with
         | context [match ?x with _ => _ end] =>
             destruct x eqn:?; cbv beta iota in H
         end;
  try discriminate H.

Lemma poll_returns_success key endpoint budget :
  forall w o w1,
    poll key endpoint budget w = (Ok o, w1) ->
    exists text, o = Success "replicate" (JStr text) /\ text <> "".
Proof.
  induction budget as [|budget IH]; intros w o w1 Hrun.
  - discriminate Hrun.
  - simpl in Hrun.
    unfold bind, lift, fetch, res_json, member, sleep, throw, ret in Hrun.
    run_cases Hrun.
    all: try (injection Hrun as <- _; eexists; split; [reflexivity |];
              intros ->; discriminate).
    all: eapply IH; eassumption.
Qed.

Lemma try_of_returns_success (K : provider) key prompt w o w1 :
  try_of K key prompt w = (Ok o, w1) ->
  exists text, o = Success (provider_id K) text /\ truthy text = true.
Proof.
  intros Hrun. destruct K; simpl in Hrun |- *.
  5: { unfold tryReplicate_try, bind, fetch, res_json, throw, ret in Hrun.
       run_cases Hrun.
       all: apply poll_returns_success in Hrun as (text & -> & Hne).
       all: exists (JStr text); split; [reflexivity |].
       all: destruct text; [contradiction | reflexivity]. }
  all: [> unfold tryOpenAI_try in Hrun | unfold tryOpenRouter_try in Hrun
        | unfold tryGemini_try in Hrun | unfold tryHuggingFace_try in Hrun ].
  all: unfold bind, lift, fetch, res_json, throw, ret in Hrun.
  all: run_cases Hrun.
  all: injection Hrun as <- _; eexists; split; [reflexivity |].
  all: try reflexivity.
  all: match goal with H : negb (truthy ?t) = false |- _ =>
         now apply negb_false_iff in H end.
Qed.

(** Every outcome of an adapter carries the adapter's own provider id, and
    a success carries a truthy text. *)
Lemma attempt_outcome (K : provider) prompt w o w1 :
  attempt_of K prompt w = (Ok o, w1) ->
  outcome_provider o = provider_id K /\
  (forall id text, o = Success id text -> truthy text = true).
Proof.
  rewrite attempt_of_unfold.
  destruct (configured (env w (credential_var K))) as [key|].
  - unfold try_catch, bind, console_error, ret.
    destruct (try_of K key prompt w) as [[o'|e] w'] eqn:Hrun; intros Heq;
      injection Heq as <- _.
    + apply try_of_returns_success in Hrun as (text & -> & Htext).
      split; [reflexivity |]. intros id t Ht. now injection Ht as _ <-.
    + split; [reflexivity | discriminate].
  - intros Heq. injection Heq as <- _. split; [reflexivity | discriminate].
Qed.

Lemma failure_provider (K : provider) prompt w id reason w1 :
  attempt_of K prompt w = (Ok (Failure id reason), w1) -> id = provider_id K.
Proof. intros H. now apply attempt_outcome in H as [H _]. Qed.

(** C1: let [K] stand in the handler's order after [before] and ahead of
    [after].  With stub adapters and any assignment of outcomes in which
    the providers of [before] fail and [K] succeeds, the response is 200
    with [K]'s provider id and text, and the calls recorded are those of
    [before] and of [K], in order: no provider of [after] is called.  With
    the real adapters, when those of [before] fail in turn and [K]'s
    succeeds, the response is 200 with [K]'s id and text and the world is
    the one [K]'s adapter left: nothing runs after it. *)
Theorem first_success_wins (req : http_request) (prompt : string)
    (before after : list provider) (K : provider) :
  carries_prompt req prompt ->
  priority = (before ++ K :: after)%list ->
  (forall (assign : provider -> outcome) w id text,
      (forall J, In J before -> exists id' reason, assign J = Failure id' reason) ->
      assign K = Success id text ->
      serve_with (stubs assign) req w =
        (Ok (json_response 200 (JObj [("provider", JStr id); ("text", text)])),
         record_all (calls (before ++ [K]) prompt) w)) /\
  (forall w entries w1 id text w2,
      fail_in_turn attempt_of prompt before w entries w1 ->
      attempt_of K prompt w1 = (Ok (Success id text), w2) ->
      id = provider_id K /\
      serve req w =
        (Ok (json_response 200
               (JObj [("provider", JStr (provider_id K)); ("text", text)])),
         w2)).
Proof.
  intros Hreq Horder. split.
  - intros assign w id text Hfail HK.
    rewrite (serve_with_prompt _ _ _ _ Hreq).
    unfold stubs. rewrite Horder. unfold try_catch, bind.
    rewrite (stubs_run assign prompt K id text after HK before [] w Hfail).
    reflexivity.
  - intros w entries w1 id text w2 Hfail HK.
    pose proof (attempt_outcome _ _ _ _ _ HK) as [Hid _]. simpl in Hid.
    subst id. split; [reflexivity |].
    unfold serve. rewrite (serve_with_prompt _ _ _ _ Hreq).
    rewrite attempts_priority, Horder, map_app. unfold try_catch, bind.
    rewrite (for_attempts_fail_in_turn attempt_of prompt before _ _ _ _ _ Hfail).
    simpl map. rewrite (for_attempts_success _ _ _ _ _ _ _ _ HK).
    reflexivity.
Qed.

(** Gemini succeeds after OpenAI and OpenRouter failed: HuggingFace and
    Replicate are never called, stubbed or real. *)
Lemma first_success_wins_witness :
  (let assign := fun K =>
     match K with
     | OpenAI => Failure "openai" "Error: OpenAI HTTP 429"
     | OpenRouter => Failure "openrouter" "OPENROUTER_API_KEY not set"
     | Gemini => Success "gemini" (JStr "disk is full")
     | HuggingFace => Success "huggingface" (JStr "unused")
     | Replicate => Failure "replicate" "Error: Replicate timeout"
     end in
   serve_with (stubs assign) (post (JObj [("prompt", JStr "logs")])) offline =
     (Ok (json_response 200
            (JObj [("provider", JStr "gemini"); ("text", JStr "disk is full")])),
      record_all [EvCalled "openai" "logs"; EvCalled "openrouter" "logs";
                  EvCalled "gemini" "logs"] offline)) /\
  serve (post (JObj [("prompt", JStr "logs")])) (only_gemini "disk is full") =
    (Ok (json_response 200
           (JObj [("provider", JStr "gemini"); ("text", JStr "disk is full")])),
     record (EvFetch (tryGemini_request "g" "logs")) (only_gemini "disk is full")).
Proof.
  assert (Hreq : carries_prompt (post (JObj [("prompt", JStr "logs")])) "logs").
  { split; [discriminate |]. split; [discriminate |].
    exists [("prompt", JStr "logs")]. split; reflexivity. }
  pose proof (first_success_wins (post (JObj [("prompt", JStr "logs")])) "logs"
                [OpenAI; OpenRouter] [HuggingFace; Replicate] Gemini
                Hreq eq_refl) as [Hstub Hreal].
  split.
  - intros assign. apply Hstub.
    + intros J [<- | [<- | []]]; simpl; eauto.
    + reflexivity.
  - apply (Hreal (only_gemini "disk is full")
             [attempt_entry "openai" "OPENAI_API_KEY not set";
              attempt_entry "openrouter" "OPENROUTER_API_KEY not set"]
             (only_gemini "disk is full") "gemini" (JStr "disk is full")).
    + apply fail_next with (w1 := only_gemini "disk is full"); [reflexivity |].
      apply fail_next with (w1 := only_gemini "disk is full"); [reflexivity |].
      apply fail_none.
    + reflexivity.
Defined.

(** C2: when the five adapters, run one after the other in the handler's
    order, all return a failure, the response is 502, its body is
    [{ error: "All providers failed", attempts }] and [attempts] holds five
    entries, for openai, openrouter, gemini, huggingface and replicate in
    that order, each with the reason its adapter gave. *)
Theorem all_failures_are_502 (req : http_request) (prompt : string)
    (w wA wB wC wD wE : World) (idA idB idC idD idE rA rB rC rD rE : string) :
  carries_prompt req prompt ->
  tryOpenAI prompt w = (Ok (Failure idA rA), wA) ->
  tryOpenRouter prompt wA = (Ok (Failure idB rB), wB) ->
  tryGemini prompt wB = (Ok (Failure idC rC), wC) ->
  tryHuggingFace prompt wC = (Ok (Failure idD rD), wD) ->
  tryReplicate prompt wD = (Ok (Failure idE rE), wE) ->
  serve req w =
    (Ok (json_response 502
           (JObj [("error", JStr "All providers failed");
                  ("attempts",
                   JArr [JObj [("provider", JStr "openai"); ("error", JStr rA)];
                         JObj [("provider", JStr "openrouter"); ("error", JStr rB)];
                         JObj [("provider", JStr "gemini"); ("error", JStr rC)];
                         JObj [("provider", JStr "huggingface"); ("error", JStr rD)];
                         JObj [("provider", JStr "replicate"); ("error", JStr rE)]])])),
     wE).
Proof.
  intros Hreq HA HB HC HD HE.
  pose proof (failure_provider OpenAI _ _ _ _ _ HA) as ->.
  pose proof (failure_provider OpenRouter _ _ _ _ _ HB) as ->.
  pose proof (failure_provider Gemini _ _ _ _ _ HC) as ->.
  pose proof (failure_provider HuggingFace _ _ _ _ _ HD) as ->.
  pose proof (failure_provider Replicate _ _ _ _ _ HE) as ->.
  unfold serve. rewrite (serve_with_prompt _ _ _ _ Hreq).
  unfold try_catch, bind at 1, attempts.
  rewrite (for_attempts_failure _ _ _ _ _ _ _ _ HA).
  rewrite (for_attempts_failure _ _ _ _ _ _ _ _ HB).
  rewrite (for_attempts_failure _ _ _ _ _ _ _ _ HC).
  rewrite (for_attempts_failure _ _ _ _ _ _ _ _ HD).
  rewrite (for_attempts_failure _ _ _ _ _ _ _ _ HE).
  reflexivity.
Qed.

Lemma all_failures_are_502_witness :
  serve (post (JObj [("prompt", JStr "logs")])) offline =
    (Ok (json_response 502
           (JObj [("error", JStr "All providers failed");
                  ("attempts",
                   JArr [JObj [("provider", JStr "openai");
                               ("error", JStr "OPENAI_API_KEY not set")];
                         JObj [("provider", JStr "openrouter");
                               ("error", JStr "OPENROUTER_API_KEY not set")];
                         JObj [("provider", JStr "gemini");
                               ("error", JStr "GOOGLE_GEMINI_API_KEY not set")];
                         JObj [("provider", JStr "huggingface");
                               ("error", JStr "HUGGING_FACE_ACCESS_TOKEN not set")];
                         JObj [("provider", JStr "replicate");
                               ("error", JStr "REPLICATE_API_KEY not set")]])])),
     offline).
Proof.
  apply (all_failures_are_502 (post (JObj [("prompt", JStr "logs")])) "logs"
           offline offline offline offline offline offline
           "openai" "openrouter" "gemini" "huggingface" "replicate").
  - split; [discriminate |]. split; [discriminate |].
    exists [("prompt", JStr "logs")]. split; reflexivity.
  - reflexivity.
  - reflexivity.
  - reflexivity.
  - reflexivity.
  - reflexivity.
Defined.

(** *** The polling loop *)

Lemma strict_eq_false (st : option json) (s : string) :
  st <> Some (JStr s) -> strict_eq st s = false.
Proof.
  destruct st as [[| | | t | |]|]; simpl; try reflexivity.
  intros Hne. apply String.eqb_neq. congruence.
Qed.

Lemma record_turn key url w :
  record (EvSleep 1000) (record (EvFetch (status_request key url)) w) =
  record_all (turn key url) w.
Proof. unfold record, record_all, turn; simpl. now rewrite <- app_assoc. Qed.

(** One iteration that reads a non-terminal status: the read, the delay,
    and the rest of the loop with one iteration less. *)
Lemma poll_turn key endpoint url budget w r body :
  js_to_string endpoint = Ok url ->
  net w (log w) (status_request key url) = NetReply r ->
  payload r = GoodJson body ->
  body <> JNull ->
  nonterminal (get_prop body "status") ->
  poll key endpoint (S budget) w =
    poll key endpoint budget (record_all (turn key url) w).
Proof.
  intros Hurl Hnet Hbody Hnonnull (Hs & Hf & Hc).
  simpl. unfold bind at 1, lift. rewrite Hurl.
  unfold bind at 1, fetch. rewrite Hnet.
  unfold bind at 1, res_json. rewrite Hbody. unfold ret at 1.
  assert (Hm : forall w', member body "status" w' = (Ok (get_prop body "status"), w')).
  { intros w'. destruct body; try reflexivity. contradiction. }
  unfold bind at 1. rewrite Hm.
  rewrite (strict_eq_false _ _ Hs), (strict_eq_false _ _ Hf),
    (strict_eq_false _ _ Hc). simpl.
  unfold bind, sleep. now rewrite record_turn.
Qed.

(** C10: a status read answered with a JSON body (other than [null]) whose
    [status] is none of succeeded, failed, canceled -- whatever the HTTP
    status of the read -- uses up one iteration: after the read and the
    one-second delay the loop goes on with one iteration less. *)
Theorem other_status_polls_again (key : string) (endpoint : json) (url : string)
    (budget : nat) (w : World) (r : reply) (body : json) :
  js_to_string endpoint = Ok url ->
  net w (log w) (status_request key url) = NetReply r ->
  payload r = GoodJson body ->
  body <> JNull ->
  nonterminal (get_prop body "status") ->
  poll key endpoint (S budget) w =
    poll key endpoint budget
      (record (EvSleep 1000) (record (EvFetch (status_request key url)) w)).
Proof.
  intros. rewrite record_turn. eapply poll_turn; eassumption.
Qed.

Lemma other_status_polls_again_witness :
  poll "r8" (JStr prediction_url) 30 stalled =
  poll "r8" (JStr prediction_url) 29
    (record (EvSleep 1000)
       (record (EvFetch (status_request "r8" prediction_url)) stalled)).
Proof.
  apply (other_status_polls_again "r8" (JStr prediction_url) prediction_url 29
           stalled
           (mk_reply 404 (GoodJson (JObj [("detail", JStr "Not found")])))
           (JObj [("detail", JStr "Not found")])).
  - reflexivity.
  - reflexivity.
  - reflexivity.
  - discriminate.
  - repeat split; discriminate.
Defined.

Lemma status_reads_app evs1 evs2 :
  status_reads (evs1 ++ evs2) = status_reads evs1 + status_reads evs2.
Proof. unfold status_reads. now rewrite filter_app, length_app. Qed.

Lemma status_reads_turns n key url : status_reads (turns n key url) = n.
Proof.
  induction n as [|n IH]; [reflexivity |].
  change (turns (S n) key url) with (turn key url ++ turns n key url)%list.
  rewrite status_reads_app, IH. reflexivity.
Qed.

(** Pending at every read: the loop runs its [budget] turns and throws the
    timeout. *)
Lemma poll_pending_forever key url budget :
  forall w,
    (forall evs, reports_pending (net w (log w ++ evs) (status_request key url))) ->
    poll key (JStr url) budget w =
      (Throw (Error "Replicate timeout"), record_all (turns budget key url) w).
Proof.
  induction budget as [|budget IH]; intros w Hpending.
  - simpl. now rewrite record_all_nil.
  - destruct (Hpending []) as (r & body & Hnet & Hbody & Hnonnull & Hst).
    rewrite app_nil_r in Hnet.
    rewrite (poll_turn key (JStr url) url budget w r body eq_refl
               Hnet Hbody Hnonnull Hst).
    rewrite IH.
    + now rewrite record_all_app.
    + intros evs. simpl. rewrite <- app_assoc. apply Hpending.
Qed.

(** Pending for [n] reads, then succeeded with the string [X]. *)
Lemma poll_pending_then_succeeded key url X r body :
  X <> "" ->
  payload r = GoodJson body ->
  get_prop body "status" = Some (JStr "succeeded") ->
  get_prop body "output" = Some (JStr X) ->
  forall n extra w,
    (forall evs, status_reads evs < n ->
                 reports_pending (net w (log w ++ evs) (status_request key url))) ->
    (forall evs, status_reads evs = n ->
                 net w (log w ++ evs) (status_request key url) = NetReply r) ->
    poll key (JStr url) (n + S extra) w =
      (Ok (Success "replicate" (JStr X)),
       record_all (turns n key url ++ [EvFetch (status_request key url)]) w).
Proof.
  intros HX Hbody Hstatus Houtput.
  induction n as [|n IH]; intros extra w Hpending Hdone.
  - specialize (Hdone [] eq_refl). rewrite app_nil_r in Hdone.
    simpl. unfold bind at 1, lift.
    unfold bind at 1, fetch. rewrite Hdone.
    unfold bind at 1, res_json. rewrite Hbody. unfold ret at 1.
    assert (Hm : forall name w', member body name w' = (Ok (get_prop body name), w')).
    { intros name w'. destruct body; try reflexivity. discriminate Hstatus. }
    unfold bind at 1. rewrite Hm, Hstatus. simpl.
    unfold bind at 1. rewrite Hm, Houtput. simpl.
    unfold bind, lift. destruct X; [contradiction | reflexivity].
  - destruct (Hpending [] (Nat.lt_0_succ n))
      as (r' & body' & Hnet & Hbody' & Hnonnull & Hst).
    rewrite app_nil_r in Hnet.
    change (S n + S extra) with (S (n + S extra)).
    rewrite (poll_turn key (JStr url) url _ w r' body' eq_refl
               Hnet Hbody' Hnonnull Hst).
    rewrite IH.
    + rewrite record_all_app. reflexivity.
    + intros evs Hlt. simpl. rewrite <- app_assoc. apply Hpending.
      unfold status_reads in *. simpl. lia.
    + intros evs Heq. simpl. rewrite <- app_assoc. apply Hdone.
      unfold status_reads in *. simpl. lia.
Qed.

(** Pending for the first [n] reads, whatever comes later: the loop runs
    [n] turns. *)
Lemma poll_pending_prefix key url :
  forall n budget w,
    (forall evs, status_reads evs < n ->
                 reports_pending (net w (log w ++ evs) (status_request key url))) ->
    poll key (JStr url) (n + budget) w =
      poll key (JStr url) budget (record_all (turns n key url) w).
Proof.
  induction n as [|n IH]; intros budget w Hpending.
  - simpl. now rewrite record_all_nil.
  - destruct (Hpending [] (Nat.lt_0_succ n))
      as (r & body & Hnet & Hbody & Hnonnull & Hst).
    rewrite app_nil_r in Hnet.
    change (S n + budget) with (S (n + budget)).
    rewrite (poll_turn key (JStr url) url _ w r body eq_refl
               Hnet Hbody Hnonnull Hst).
    rewrite IH.
    + rewrite record_all_app. reflexivity.
    + intros evs Hlt. simpl. rewrite <- app_assoc. apply Hpending.
      unfold status_reads in *. simpl. lia.
Qed.

(** After an accepted submission the adapter is the polling loop, with 30
    iterations, under its [catch]. *)
Lemma tryReplicate_accepted prompt w key url :
  accepted w key prompt url ->
  tryReplicate prompt w =
    try_catch (poll key (JStr url) 30)
      (fun error =>
         console_error "Replicate error:" error ;;;
         ret (Failure "replicate" (String_error error)))
      (record (EvFetch (tryReplicate_request key prompt)) w).
Proof.
  intros (Hkey & Hurl & r & data & Hnet & Hok & Hbody & Hget).
  unfold tryReplicate, bind at 1, Deno_env_get. rewrite Hkey.
  unfold try_catch, tryReplicate_try.
  unfold bind at 1, fetch. rewrite Hnet, Hok. simpl negb. cbv iota.
  unfold bind at 1, res_json. rewrite Hbody. unfold ret at 1.
  cbv zeta. rewrite Hget. simpl.
  destruct url; [contradiction | reflexivity].
Qed.

(** *** Counting status reads *)

Section Adds.
Context {A B : Type}.

Lemma adds_silent (r : result A) n : adds (fun w => (r, w)) n.
Proof.
  intros w. exists []. simpl. rewrite record_all_nil.
  split; [reflexivity | unfold status_reads; simpl; lia].
Qed.

Lemma adds_event (r : result A) ev n :
  is_status_read ev = false -> adds (fun w => (r, record ev w)) n.
Proof.
  intros Hev w. exists [ev]. split; [reflexivity |].
  unfold status_reads. simpl. rewrite Hev. simpl. lia.
Qed.

Lemma adds_le (m : M A) n n' : adds m n -> n <= n' -> adds m n'.
Proof.
  intros Hm Hle w. destruct (Hm w) as (evs & Heq & Hn).
  exists evs. split; [assumption | lia].
Qed.

Lemma adds_bind (m : M A) (k : A -> M B) n1 n2 :
  adds m n1 -> (forall a, adds (k a) n2) -> adds (bind m k) (n1 + n2).
Proof.
  intros Hm Hk w. unfold bind.
  destruct (Hm w) as (evs1 & Heq1 & Hn1).
  destruct (m w) as [[a|e] w1]; simpl in Heq1; subst w1.
  - destruct (Hk a (record_all evs1 w)) as (evs2 & Heq2 & Hn2).
    exists (evs1 ++ evs2)%list. rewrite Heq2, record_all_app.
    split; [reflexivity |]. rewrite status_reads_app. lia.
  - exists evs1. split; [reflexivity | lia].
Qed.

Lemma adds_try_catch (m : M A) (h : js_error -> M A) n1 n2 :
  adds m n1 -> (forall e, adds (h e) n2) -> adds (try_catch m h) (n1 + n2).
Proof.
  intros Hm Hh w. unfold try_catch.
  destruct (Hm w) as (evs1 & Heq1 & Hn1).
  destruct (m w) as [[a|e] w1]; simpl in Heq1; subst w1.
  - exists evs1. split; [reflexivity | lia].
  - destruct (Hh e (record_all evs1 w)) as (evs2 & Heq2 & Hn2).
    exists (evs1 ++ evs2)%list. rewrite Heq2, record_all_app.
    split; [reflexivity |]. rewrite status_reads_app. lia.
Qed.
End Adds.

Lemma adds_fetch rq n : adds (fetch rq) (S n).
Proof.
  intros w. exists [EvFetch rq]. unfold fetch.
  split; [destruct (net w (log w) rq); reflexivity |].
  unfold status_reads. simpl. destruct (req_method rq =? "GET")%string; simpl; lia.
Qed.

Lemma adds_post url hs body n : adds (fetch (mk_request url "POST" hs body)) n.
Proof.
  intros w. exists [EvFetch (mk_request url "POST" hs body)]. unfold fetch.
  split; [destruct (net w (log w) _); reflexivity |].
  unfold status_reads. simpl. lia.
Qed.

Lemma adds_ret {A} (a : A) n : adds (ret a) n.
Proof. apply (adds_silent (Ok a)). Qed.

Lemma adds_throw {A} e n : adds (@throw A e) n.
Proof. apply (adds_silent (Throw e)). Qed.

Lemma adds_lift {A} (r : result A) n : adds (lift r) n.
Proof. apply (adds_silent r). Qed.

Lemma adds_env name n : adds (Deno_env_get name) n.
Proof.
  intros w. exists []. unfold Deno_env_get. simpl. rewrite record_all_nil.
  split; [reflexivity | unfold status_reads; simpl; lia].
Qed.

Lemma adds_res_json r n : adds (res_json r) n.
Proof. unfold res_json. destruct (payload r); [apply adds_ret | apply adds_throw]. Qed.

Lemma adds_member v name n : adds (member v name) n.
Proof. unfold member. destruct v; first [apply adds_ret | apply adds_throw]. Qed.

Lemma adds_console {A} label e (a : A) n :
  adds (console_error label e ;;; ret a) n.
Proof. apply (adds_event (Ok a)). reflexivity. Qed.

(** Binding a computation that makes no status read. *)
Lemma adds_bind0 {A B} (m : M A) (k : A -> M B) n :
  adds m 0 -> (forall a, adds (k a) n) -> adds (bind m k) n.
Proof. intros Hm Hk. apply (adds_bind m k 0 n Hm Hk). Qed.

(** Whatever the network answers, a loop of [budget] iterations makes at
    most [budget] status reads. *)
Lemma poll_reads_bounded key endpoint budget :
  adds (poll key endpoint budget) budget.
Proof.
  induction budget as [|budget IH]; [apply adds_throw |].
  simpl poll.
  apply adds_bind0; [apply adds_lift | intros url].
  apply (adds_bind _ _ 1 budget); [apply adds_fetch | intros check].
  apply adds_bind0; [apply adds_res_json | intros body].
  apply adds_bind0; [apply adds_member | intros st].
  destruct (strict_eq st "succeeded").
  - apply adds_bind0; [apply adds_member | intros output].
    apply adds_bind0; [apply adds_lift | intros text].
    destruct (negb (truthy_string text)); [apply adds_throw | apply adds_ret].
  - destruct (strict_eq st "failed" || strict_eq st "canceled").
    + apply adds_bind0; [apply adds_lift | intros s]. apply adds_throw.
    + apply adds_bind0; [| intros _; exact IH].
      apply (adds_event (Ok tt)). reflexivity.
Qed.

Lemma tryReplicate_reads_bounded prompt : adds (tryReplicate prompt) 30.
Proof.
  unfold tryReplicate.
  apply adds_bind0; [apply adds_env | intros REPLICATE_API_KEY].
  destruct (configured REPLICATE_API_KEY) as [key|]; [| apply adds_ret].
  apply (adds_try_catch _ _ 30 0); [| intros e; apply adds_console].
  unfold tryReplicate_try.
  apply adds_bind0; [apply adds_post | intros res].
  destruct (negb (res_ok res)); [apply adds_throw |].
  apply adds_bind0; [apply adds_res_json | intros data]. cbv zeta.
  destruct (negb (truthy_opt _)); [apply adds_throw |].
  apply poll_reads_bounded.
Qed.

(** C3: the Replicate adapter makes at most 30 status reads, whatever the
    network answers.  After an accepted submission: if every status read
    reports a pending job, the adapter returns the failure
    [Error: Replicate timeout] after exactly 30 reads, each followed by the
    one-second delay; if the first 29 reads report a pending job and the
    30th reports succeeded with the non-empty output string [X], the
    adapter returns a success with text [X] at that 30th read. *)
Theorem replicate_polling_protocol (prompt : string) (w : World) :
  (exists evs,
      snd (tryReplicate prompt w) = record_all evs w /\ status_reads evs <= 30) /\
  (forall key url,
      accepted w key prompt url ->
      (forall evs,
          reports_pending (net w (log w ++ evs) (status_request key url))) ->
      let evs :=
        (EvFetch (tryReplicate_request key prompt) :: turns 30 key url ++
         [EvConsoleError "Replicate error:" (Error "Replicate timeout")])%list in
      tryReplicate prompt w =
        (Ok (Failure "replicate" "Error: Replicate timeout"), record_all evs w) /\
      status_reads evs = 30) /\
  (forall key url X r body,
      accepted w key prompt url ->
      X <> "" ->
      payload r = GoodJson body ->
      get_prop body "status" = Some (JStr "succeeded") ->
      get_prop body "output" = Some (JStr X) ->
      (forall evs,
          status_reads evs < 29 ->
          reports_pending (net w (log w ++ evs) (status_request key url))) ->
      (forall evs,
          status_reads evs = 29 ->
          net w (log w ++ evs) (status_request key url) = NetReply r) ->
      let evs :=
        (EvFetch (tryReplicate_request key prompt) :: turns 29 key url ++
         [EvFetch (status_request key url)])%list in
      tryReplicate prompt w =
        (Ok (Success "replicate" (JStr X)), record_all evs w) /\
      status_reads evs = 30).
Proof.
  split; [apply tryReplicate_reads_bounded |]. split.
  - intros key url Hacc Hpending evs. split; [| reflexivity].
    rewrite (tryReplicate_accepted _ _ _ _ Hacc). unfold try_catch.
    rewrite poll_pending_forever.
    + unfold bind, console_error, ret. subst evs.
      now rewrite record_record_all, record_all_record.
    + intros evs'. simpl. rewrite <- app_assoc. apply Hpending.
  - intros key url X r body Hacc HX Hbody Hstatus Houtput Hpending Hdone evs.
    split; [| reflexivity].
    rewrite (tryReplicate_accepted _ _ _ _ Hacc). unfold try_catch.
    change 30 with (29 + 1).
    rewrite (poll_pending_then_succeeded key url X r body HX Hbody Hstatus
               Houtput 29 0).
    + subst evs. now rewrite record_all_record.
    + intros evs' Hlt. simpl. rewrite <- app_assoc. apply Hpending.
      unfold status_reads in *. simpl. exact Hlt.
    + intros evs' Heq. simpl. rewrite <- app_assoc. apply Hdone.
      unfold status_reads in *. simpl. exact Heq.
Qed.

Lemma accepted_replicate_only answer prompt :
  accepted (replicate_only answer) "r8" prompt prediction_url.
Proof.
  split; [reflexivity |]. split; [discriminate |].
  eexists. eexists. repeat split; reflexivity.
Defined.

Lemma replicate_polling_protocol_witness :
  (tryReplicate "logs" stalled =
     (Ok (Failure "replicate" "Error: Replicate timeout"),
      record_all
        (EvFetch (tryReplicate_request "r8" "logs") :: turns 30 "r8" prediction_url ++
         [EvConsoleError "Replicate error:" (Error "Replicate timeout")])
        stalled) /\
   status_reads
     (EvFetch (tryReplicate_request "r8" "logs") :: turns 30 "r8" prediction_url ++
      [EvConsoleError "Replicate error:" (Error "Replicate timeout")]) = 30) /\
  (tryReplicate "logs" (slow (JStr "X")) =
     (Ok (Success "replicate" (JStr "X")),
      record_all
        (EvFetch (tryReplicate_request "r8" "logs") :: turns 29 "r8" prediction_url ++
         [EvFetch (status_request "r8" prediction_url)])
        (slow (JStr "X"))) /\
   status_reads
     (EvFetch (tryReplicate_request "r8" "logs") :: turns 29 "r8" prediction_url ++
      [EvFetch (status_request "r8" prediction_url)]) = 30).
Proof.
  split.
  - apply (proj1 (proj2 (replicate_polling_protocol "logs" stalled))
             "r8" prediction_url (accepted_replicate_only _ "logs")).
    intros evs.
    exists (mk_reply 404 (GoodJson (JObj [("detail", JStr "Not found")]))).
    exists (JObj [("detail", JStr "Not found")]).
    repeat split; try reflexivity; discriminate.
  - apply (proj2 (proj2 (replicate_polling_protocol "logs" (slow (JStr "X"))))
             "r8" prediction_url "X"
             (mk_reply 200
                (GoodJson (JObj [("status", JStr "succeeded"); ("output", JStr "X")])))
             (JObj [("status", JStr "succeeded"); ("output", JStr "X")])
             (accepted_replicate_only _ "logs")).
    + discriminate.
    + reflexivity.
    + reflexivity.
    + reflexivity.
    + intros evs Hlt. simpl.
      apply Nat.ltb_lt in Hlt. rewrite Hlt.
      exists (mk_reply 200 (GoodJson (JObj [("status", JStr "processing")]))).
      exists (JObj [("status", JStr "processing")]).
      repeat split; try reflexivity; discriminate.
    + intros evs Heq. simpl. rewrite Heq. reflexivity.
Defined.

(** *** Request payloads *)

(** C6, as the adapters have it: OpenAI and OpenRouter send a payload with
    a fixed model, the fixed system instruction and temperature 0.2.
    Gemini and HuggingFace send the prompt alone (one user turn; [inputs]
    with the [wait_for_model] option): no system instruction and no
    temperature, and their fixed model is named in the URL.  Each [try]
    block starts by sending the serialised payload. *)
Theorem synchronous_payloads (prompt : string) :
  (get_prop (tryOpenAI_payload prompt) "model" = Some (JStr "gpt-4.1-2025-04-14") /\
   system_instruction (tryOpenAI_payload prompt) =
     Some (JStr "You are an expert analyst that produces concise, actionable reports.") /\
   get_prop (tryOpenAI_payload prompt) "temperature" = Some (JNum 2 1)) /\
  (get_prop (tryOpenRouter_payload prompt) "model" = Some (JStr "openai/gpt-4o-mini") /\
   system_instruction (tryOpenRouter_payload prompt) =
     Some (JStr "You are an expert analyst that produces concise, actionable reports.") /\
   get_prop (tryOpenRouter_payload prompt) "temperature" = Some (JNum 2 1)) /\
  (json_keys (tryGemini_payload prompt) = ["contents"; "role"; "parts"; "text"] /\
   json_leaves (tryGemini_payload prompt) = [JStr "user"; JStr prompt] /\
   forall key,
     req_url (tryGemini_request key prompt) =
       "https://generativelanguage.googleapis.com/v1beta/models/gemini-1.5-flash:generateContent?key="
         ++ key) /\
  (json_keys (tryHuggingFace_payload prompt) = ["inputs"; "options"; "wait_for_model"] /\
   json_leaves (tryHuggingFace_payload prompt) = [JStr prompt; JBool true] /\
   forall key,
     req_url (tryHuggingFace_request key prompt) =
       "https://api-inference.huggingface.co/models/mistralai/Mixtral-8x7B-Instruct-v0.1") /\
  (forall K key,
      req_body (request_of K key prompt) =
        Some (JSON_stringify (payload_of K prompt)) /\
      exists rest, try_of K key prompt = bind (fetch (request_of K key prompt)) rest).
Proof.
  repeat split; try reflexivity.
  - destruct K; reflexivity.
  - destruct K; eexists; reflexivity.
Qed.

(** C6 as stated fails on Gemini and HuggingFace: for the prompt [logs]
    their payloads hold the prompt and nothing that could be a system
    instruction, a model or a temperature. *)
Lemma bare_payloads :
  (tryGemini_payload "logs" =
     JObj [("contents",
            JArr [JObj [("role", JStr "user");
                        ("parts", JArr [JObj [("text", JStr "logs")]])]])] /\
   system_instruction (tryGemini_payload "logs") = None /\
   get_prop (tryGemini_payload "logs") "model" = None /\
   get_prop (tryGemini_payload "logs") "temperature" = None /\
   existsb (String.eqb "temperature") (json_keys (tryGemini_payload "logs")) = false) /\
  (tryHuggingFace_payload "logs" =
     JObj [("inputs", JStr "logs");
           ("options", JObj [("wait_for_model", JBool true)])] /\
   system_instruction (tryHuggingFace_payload "logs") = None /\
   get_prop (tryHuggingFace_payload "logs") "model" = None /\
   get_prop (tryHuggingFace_payload "logs") "temperature" = None /\
   existsb (String.eqb "temperature") (json_keys (tryHuggingFace_payload "logs")) = false).
Proof. repeat split. Qed.

(** *** Text extraction *)

Lemma append_nonempty_r (a b : string) : b <> "" -> a ++ b <> "".
Proof. destruct a; [trivial | discriminate]. Qed.

Lemma digits_of_nonempty n : digits_of n <> "".
Proof.
  unfold digits_of, NilZero.string_of_uint.
  destruct (N.to_uint (Z.to_N (Z.abs n))); simpl; discriminate.
Qed.

Lemma num_to_string_nonempty m e : num_to_string m e <> "".
Proof.
  unfold num_to_string. destruct (Z.eqb m 0); [discriminate |].
  cbv zeta. apply append_nonempty_r.
  destruct (digits_of m) as [|c r];
    repeat match goal with
           | |- context [if ?b then _ else _] => destruct b
           end;
    simpl; try discriminate;
    try (apply append_nonempty_r; discriminate);
    destruct (strip_zeros r); discriminate.
Qed.

(** [JSON.stringify] never gives the empty string. *)
Lemma JSON_stringify_nonempty v : JSON_stringify v <> "".
Proof.
  destruct v; simpl; try discriminate.
  - destruct b; discriminate.
  - apply num_to_string_nonempty.
Qed.

Lemma truthy_JStr s : s <> "" -> truthy (JStr s) = true.
Proof. destruct s; [contradiction | reflexivity]. Qed.

Lemma join_parts_strings segs : join_parts (map JStr segs) = Ok segs.
Proof.
  induction segs as [|s segs IH]; [reflexivity |].
  simpl. now rewrite IH.
Qed.

(** A chat adapter whose request is answered: the outcome follows the
    text found at its place in the body. *)
Lemma chat_adapter_run K key prompt w data :
  In K chat_providers ->
  answered w K key prompt data ->
  attempt_of K prompt w =
    match opt_toString (text_call K) (text_place K data) with
    | Ok (Some (String c s)) =>
        (Ok (Success (provider_id K) (JStr (String c s))),
         record (EvFetch (request_of K key prompt)) w)
    | Ok _ =>
        (Ok (Failure (provider_id K)
               ("Error: " ++ display_name K ++ " empty response")),
         record (EvConsoleError (console_label K)
                   (Error (display_name K ++ " empty response")))
           (record (EvFetch (request_of K key prompt)) w))
    | Throw e =>
        (Ok (Failure (provider_id K) (String_error e)),
         record (EvConsoleError (console_label K) e)
           (record (EvFetch (request_of K key prompt)) w))
    end.
Proof.
  intros HK (Hkey & r & Hnet & Hok & Hbody).
  rewrite attempt_of_unfold, Hkey. unfold try_catch.
  destruct HK as [<- | [<- | [<- | []]]];
    unfold try_of, request_of, text_place, text_call, provider_id,
      display_name, console_label in *.
  1: unfold tryOpenAI_try. 2: unfold tryOpenRouter_try. 3: unfold tryGemini_try.
  all: unfold bind at 1, fetch; rewrite Hnet, Hok; simpl negb; cbv iota.
  all: unfold bind at 1, res_json; rewrite Hbody; unfold ret at 1.
  all: unfold bind at 1, lift.
  all: match goal with |- context [opt_toString ?c ?v] =>
         destruct (opt_toString c v) as [[[|c0 s]|]|e] end.
  all: reflexivity.
Qed.

Lemma hf_adapter_run key prompt w data :
  answered w HuggingFace key prompt data ->
  truthy (tryHuggingFace_text data) = true ->
  tryHuggingFace prompt w =
    (Ok (Success "huggingface" (tryHuggingFace_text data)),
     record (EvFetch (tryHuggingFace_request key prompt)) w).
Proof.
  intros (Hkey & r & Hnet & Hok & Hbody) Htext.
  change (tryHuggingFace prompt w) with (attempt_of HuggingFace prompt w).
  rewrite attempt_of_unfold, Hkey. unfold try_catch.
  unfold try_of, request_of in *. unfold tryHuggingFace_try.
  unfold bind at 1, fetch; rewrite Hnet, Hok; simpl negb; cbv iota.
  unfold bind at 1, res_json; rewrite Hbody; unfold ret at 1.
  cbv zeta. rewrite Htext. reflexivity.
Qed.

Lemma hf_text_carried data s :
  s <> "" -> hf_carries data s -> tryHuggingFace_text data = JStr s.
Proof.
  intros Hs Hshape. unfold tryHuggingFace_text.
  destruct Hshape as [first rest s Hgen | props s Hgen | first rest s Hgen Hsum];
    (destruct s as [|c s]; [contradiction |]).
  - destruct first; try discriminate Hgen. simpl in Hgen |- *.
    rewrite Hgen. reflexivity.
  - simpl. rewrite Hgen. reflexivity.
  - destruct first; try discriminate Hsum. simpl in Hgen, Hsum |- *.
    rewrite Hgen, Hsum. reflexivity.
Qed.

Lemma hf_text_unrecognised data :
  hf_unrecognised data ->
  tryHuggingFace_text data = JStr (JSON_stringify data).
Proof.
  intros (Hgen & Hitems). unfold tryHuggingFace_text.
  destruct data as [| b | m e | s | items | props]; try reflexivity.
  - destruct items as [|first rest]; [reflexivity |].
    destruct (Hitems first rest eq_refl) as (Hg & Hs).
    destruct first; try reflexivity.
    simpl in Hg, Hs. simpl. rewrite Hg, Hs. reflexivity.
  - simpl in Hgen. simpl. rewrite Hgen. reflexivity.
Qed.

(** The iteration that reads succeeded. *)
Lemma poll_succeeded key url budget w r body :
  net w (log w) (status_request key url) = NetReply r ->
  payload r = GoodJson body ->
  get_prop body "status" = Some (JStr "succeeded") ->
  poll key (JStr url) (S budget) w =
    match output_text (get_prop body "output") with
    | Throw e => (Throw e, record (EvFetch (status_request key url)) w)
    | Ok text =>
        if truthy_string text then
          (Ok (Success "replicate" (JStr text)),
           record (EvFetch (status_request key url)) w)
        else
          (Throw (Error "Replicate empty output"),
           record (EvFetch (status_request key url)) w)
    end.
Proof.
  intros Hnet Hbody Hstatus.
  simpl. unfold bind at 1, lift.
  unfold bind at 1, fetch. rewrite Hnet.
  unfold bind at 1, res_json. rewrite Hbody. unfold ret at 1.
  assert (Hm : forall name w', member body name w' = (Ok (get_prop body name), w')).
  { intros name w'. destruct body; try reflexivity. discriminate Hstatus. }
  unfold bind at 1. rewrite Hm, Hstatus. simpl.
  unfold bind at 1. rewrite Hm.
  unfold bind.
  destruct (output_text (get_prop body "output")) as [text|err];
    [destruct (truthy_string text) |]; reflexivity.
Qed.

Lemma replicate_run_succeeded key prompt url w n body :
  succeeded_after w key prompt url n body ->
  tryReplicate prompt w =
    match output_text (get_prop body "output") with
    | Ok (String c s) =>
        (Ok (Success "replicate" (JStr (String c s))),
         record_all
           (EvFetch (tryReplicate_request key prompt) :: turns n key url ++
            [EvFetch (status_request key url)]) w)
    | Ok EmptyString =>
        (Ok (Failure "replicate" "Error: Replicate empty output"),
         record_all
           (EvFetch (tryReplicate_request key prompt) :: turns n key url ++
            [EvFetch (status_request key url);
             EvConsoleError "Replicate error:"
               (Error "Replicate empty output")]) w)
    | Throw e =>
        (Ok (Failure "replicate" (String_error e)),
         record_all
           (EvFetch (tryReplicate_request key prompt) :: turns n key url ++
            [EvFetch (status_request key url);
             EvConsoleError "Replicate error:" e]) w)
    end.
Proof.
  intros (Hacc & Hn & Hpending & r & Hdone & Hbody & Hstatus).
  rewrite (tryReplicate_accepted _ _ _ _ Hacc). unfold try_catch.
  replace 30 with (n + S (29 - n)) by lia.
  rewrite poll_pending_prefix.
  2: { intros evs Hlt. simpl. rewrite <- app_assoc. apply Hpending.
       unfold status_reads in *. simpl. exact Hlt. }
  rewrite (poll_succeeded key url _ _ r body); try assumption.
  2: { simpl. rewrite <- app_assoc. apply Hdone.
       change (status_reads (turns n key url) = n).
       apply status_reads_turns. }
  destruct (output_text (get_prop body "output")) as [[|c s]|e];
    cbv iota beta; unfold truthy_string, bind, console_error, ret;
    rewrite ?record_record_all, record_all_record, <- ?app_assoc;
    reflexivity.
Qed.

(** C5, as the adapters have it.  A success never carries an empty (or
    otherwise falsy) text.  For OpenAI, OpenRouter and Gemini, a body whose
    text place is absent, [null] or the empty string gives the failure
    [Error: <Provider> empty response], and a non-empty string there comes
    back unchanged as the success text, whitespace included.  HuggingFace
    returns unchanged a non-empty string found as the [generated_text] of
    the first element of an array, as the [generated_text] of an object,
    or as the [summary_text] of the first element of an array whose
    [generated_text] is absent or falsy, and returns the serialised body
    when it has none of the fields.  Replicate, at whichever of its 30
    status reads reports succeeded after pending reads, returns a
    non-empty output string unchanged and, for an array of string
    segments, the segments joined with newlines when that text is not
    empty; an output that is absent, [null], empty or an empty array
    gives the failure [Error: Replicate empty output]. *)
Theorem text_extraction :
  (forall K prompt w id text w',
      attempt_of K prompt w = (Ok (Success id text), w') ->
      truthy text = true /\ text <> JStr "") /\
  (forall K key prompt w data,
      In K chat_providers ->
      answered w K key prompt data ->
      (blank (text_place K data) ->
       attempt_of K prompt w =
         (Ok (Failure (provider_id K)
                ("Error: " ++ display_name K ++ " empty response")),
          record (EvConsoleError (console_label K)
                    (Error (display_name K ++ " empty response")))
            (record (EvFetch (request_of K key prompt)) w))) /\
      (forall s,
          s <> "" ->
          text_place K data = Some (JStr s) ->
          attempt_of K prompt w =
            (Ok (Success (provider_id K) (JStr s)),
             record (EvFetch (request_of K key prompt)) w))) /\
  (forall key prompt w data,
      answered w HuggingFace key prompt data ->
      (forall s,
          s <> "" ->
          hf_carries data s ->
          tryHuggingFace prompt w =
            (Ok (Success "huggingface" (JStr s)),
             record (EvFetch (tryHuggingFace_request key prompt)) w)) /\
      (hf_unrecognised data ->
       tryHuggingFace prompt w =
         (Ok (Success "huggingface" (JStr (JSON_stringify data))),
          record (EvFetch (tryHuggingFace_request key prompt)) w))) /\
  (forall key prompt url w n body,
      succeeded_after w key prompt url n body ->
      (forall s,
          s <> "" ->
          output_carries (get_prop body "output") s ->
          tryReplicate prompt w =
            (Ok (Success "replicate" (JStr s)),
             record_all
               (EvFetch (tryReplicate_request key prompt) :: turns n key url ++
                [EvFetch (status_request key url)]) w)) /\
      (output_blank (get_prop body "output") ->
       tryReplicate prompt w =
         (Ok (Failure "replicate" "Error: Replicate empty output"),
          record_all
            (EvFetch (tryReplicate_request key prompt) :: turns n key url ++
             [EvFetch (status_request key url);
              EvConsoleError "Replicate error:"
                (Error "Replicate empty output")]) w))).
Proof.
  split; [| split; [| split]].
  - intros K prompt w id text w' Hrun.
    apply attempt_outcome in Hrun as (_ & Htruthy).
    specialize (Htruthy id text eq_refl). split; [assumption |].
    intros ->. discriminate Htruthy.
  - intros K key prompt w data HK Hans.
    rewrite (chat_adapter_run K key prompt w data HK Hans). split.
    + intros [-> | [-> | ->]]; reflexivity.
    + intros s Hs ->. simpl. destruct s; [contradiction | reflexivity].
  - intros key prompt w data Hans. split.
    + intros s Hs Hshape.
      rewrite (hf_adapter_run key prompt w data Hans);
        rewrite (hf_text_carried data s Hs Hshape);
        [reflexivity | now apply truthy_JStr].
    + intros Hshape.
      rewrite (hf_adapter_run key prompt w data Hans);
        rewrite (hf_text_unrecognised data Hshape);
        [reflexivity | apply truthy_JStr, JSON_stringify_nonempty].
  - intros key prompt url w n body Hrun.
    rewrite (replicate_run_succeeded key prompt url w n body Hrun). split.
    + intros s Hs Hshape. destruct Hshape as [s | segs].
      * simpl. destruct s; [contradiction | reflexivity].
      * unfold output_text, Array_join. rewrite join_parts_strings.
        destruct (String.concat newline segs); [contradiction | reflexivity].
    + intros [[-> | [-> | ->]] | ->]; reflexivity.
Qed.

(** C5 as stated fails: a whitespace-only text comes back as a success
    from OpenAI, and a HuggingFace body of unrecognised shape (here the
    empty array) comes back as a success carrying its serialisation. *)
Lemma blank_and_unknown_bodies_succeed :
  fst (tryOpenAI "logs"
         (always_answers
            (mk_reply 200
               (GoodJson
                  (JObj [("choices",
                          JArr [JObj [("message",
                                       JObj [("content", JStr "   ")])]])])))))
    = Ok (Success "openai" (JStr "   ")) /\
  fst (tryHuggingFace "logs" (always_answers (mk_reply 200 (GoodJson (JArr [])))))
    = Ok (Success "huggingface" (JStr "[]")).
Proof. split; reflexivity. Qed.

Lemma answered_always K prompt status data :
  res_ok (mk_reply status (GoodJson data)) = true ->
  answered (always_answers (mk_reply status (GoodJson data))) K "k" prompt data.
Proof.
  intros Hok. split; [reflexivity |].
  exists (mk_reply status (GoodJson data)). repeat split. exact Hok.
Defined.

Lemma settles_after_pending n final (evs : list event) :
  status_reads evs < n ->
  reports_pending
    (net (settles_after n final) (log (settles_after n final) ++ evs)
       (status_request "r8" prediction_url)).
Proof.
  intros Hlt. simpl. apply Nat.ltb_lt in Hlt. rewrite Hlt.
  exists (mk_reply 200 (GoodJson (JObj [("status", JStr "processing")]))).
  exists (JObj [("status", JStr "processing")]).
  repeat split; try reflexivity; discriminate.
Defined.

Lemma settles_after_final n final (evs : list event) :
  status_reads evs = n ->
  net (settles_after n final) (log (settles_after n final) ++ evs)
    (status_request "r8" prediction_url) =
  NetReply (mk_reply 200 (GoodJson final)).
Proof.
  intros Heq. simpl. rewrite Heq, Nat.ltb_irrefl. reflexivity.
Defined.

Lemma text_extraction_witness :
  (let data :=
     JObj [("candidates",
            JArr [JObj [("content",
                         JObj [("parts", JArr [JObj [("text", JStr " ok ")]])])]])] in
   tryGemini "logs" (always_answers (mk_reply 200 (GoodJson data))) =
     (Ok (Success "gemini" (JStr " ok ")),
      record (EvFetch (tryGemini_request "k" "logs"))
        (always_answers (mk_reply 200 (GoodJson data))))) /\
  (let data := JArr [JObj [("generated_text", JStr "");
                           ("summary_text", JStr "two nodes are down")]] in
   tryHuggingFace "logs" (always_answers (mk_reply 200 (GoodJson data))) =
     (Ok (Success "huggingface" (JStr "two nodes are down")),
      record (EvFetch (tryHuggingFace_request "k" "logs"))
        (always_answers (mk_reply 200 (GoodJson data))))) /\
  (let final := JObj [("status", JStr "succeeded");
                      ("output", JArr [JStr "first"; JStr "second"])] in
   tryReplicate "logs" (settles_after 2 final) =
     (Ok (Success "replicate" (JStr (String.concat newline ["first"; "second"]))),
      record_all
        (EvFetch (tryReplicate_request "r8" "logs") :: turns 2 "r8" prediction_url ++
         [EvFetch (status_request "r8" prediction_url)])
        (settles_after 2 final))).
Proof.
  split; [| split].
  - intros data.
    apply (proj2 (proj1 (proj2 text_extraction) Gemini "k" "logs"
                    (always_answers (mk_reply 200 (GoodJson data))) data
                    (or_intror (or_intror (or_introl eq_refl)))
                    (answered_always Gemini "logs" 200 data eq_refl))
             " ok ").
    + discriminate.
    + reflexivity.
  - intros data.
    apply (proj1 (proj1 (proj2 (proj2 text_extraction)) "k" "logs"
                    (always_answers (mk_reply 200 (GoodJson data))) data
                    (answered_always HuggingFace "logs" 200 data eq_refl))
             "two nodes are down").
    + discriminate.
    + apply hf_array_summary; reflexivity.
  - intros final.
    assert (Hrun : succeeded_after (settles_after 2 final) "r8" "logs"
                     prediction_url 2 final).
    { split; [apply accepted_replicate_only |]. split; [lia |].
      split; [intros evs; apply settles_after_pending |].
      exists (mk_reply 200 (GoodJson final)).
      split; [intros evs; apply settles_after_final |].
      split; reflexivity. }
    apply (proj1 (proj2 (proj2 (proj2 text_extraction)) "r8" "logs" prediction_url
                    (settles_after 2 final) 2 final Hrun)
             (String.concat newline ["first"; "second"])).
    + discriminate.
    + apply (output_segments ["first"; "second"]).
Defined.

(* ================================================================== *)
(** ** Further properties of the handler and the adapters *)
(* ================================================================== *)

(** *** The handler's responses *)

(** X1: the preflight.  A request whose method is OPTIONS gets status 200
    with the CORS headers and no body; its body is not read (it may be
    unparseable), no adapter runs and nothing is logged. *)
Theorem preflight_is_answered_blind (adapters : list adapter)
    (req : http_request) (w : World) :
  method req = "OPTIONS" ->
  serve_with adapters req w = (Ok (mk_response 200 corsHeaders None), w).
Proof.
  intros Hmethod. unfold serve_with. rewrite Hmethod. reflexivity.
Qed.

Lemma preflight_is_answered_blind_witness :
  serve (mk_http_request "OPTIONS" (BadJson (SyntaxError "Unexpected end of JSON input")))
        (always_answers (mk_reply 200 (GoodJson JNull))) =
    (Ok (mk_response 200 corsHeaders None),
     always_answers (mk_reply 200 (GoodJson JNull))).
Proof.
  apply (preflight_is_answered_blind attempts
           (mk_http_request "OPTIONS"
              (BadJson (SyntaxError "Unexpected end of JSON input")))
           (always_answers (mk_reply 200 (GoodJson JNull)))).
  reflexivity.
Defined.

(** A response returned from inside the loop is a 200 [{ provider, text }]. *)
Lemma for_attempts_early (adapters : list adapter) prompt :
  forall results w resp w',
    for_attempts adapters prompt results w = (Ok (inl resp), w') ->
    exists id text,
      resp = json_response 200 (JObj [("provider", JStr id); ("text", text)]).
Proof.
  induction adapters as [|a rest IH]; intros results w resp w' Hrun.
  - discriminate Hrun.
  - simpl in Hrun. unfold bind in Hrun at 1.
    destruct (a prompt w) as [[[id text|id reason]|e] w1].
    + injection Hrun as <- _. eauto.
    + eapply IH; eassumption.
    + discriminate Hrun.
Qed.

Lemma json_response_well_formed req code props :
  In code [200; 400; 500; 502]%Z ->
  well_formed_response req (json_response code (JObj props)).
Proof.
  intros Hcode. unfold well_formed_response, json_response; simpl.
  split; [left; reflexivity |]. split; [right; left; reflexivity |].
  split; [exact Hcode |]. intros _.
  split; [right; right; left; reflexivity |]. exists props. reflexivity.
Qed.

(** X2: whatever the adapters are, even adapters that throw, and whatever
    the request is, the handler returns a response and never throws; the
    response carries the two CORS headers, its status is 200, 400, 500 or
    502, and unless the request is the preflight it has the JSON content
    type and a serialised JSON object as body. *)
Theorem handler_always_answers (adapters : list adapter) (req : http_request)
    (w : World) :
  exists resp w',
    serve_with adapters req w = (Ok resp, w') /\ well_formed_response req resp.
Proof.
  unfold serve_with.
  destruct (method req =? "OPTIONS")%string eqn:Hmethod.
  - do 2 eexists. split; [reflexivity |].
    apply String.eqb_eq in Hmethod.
    unfold well_formed_response; simpl.
    split; [left; reflexivity |]. split; [right; left; reflexivity |].
    split; [left; reflexivity |]. intros Hne. contradiction.
  - unfold try_catch, bind at 1 2 3 4, req_json.
    destruct (json_body req) as [data|e].
    2: { do 2 eexists. split; [reflexivity |].
         apply json_response_well_formed. simpl; auto. }
    unfold ret at 1.
    destruct data as [| b | m e | s | items | props]; simpl destructure_prompt;
      unfold throw, ret;
      try (do 2 eexists; split;
           [reflexivity | apply json_response_well_formed; simpl; auto]).
    simpl get_prop.
    destruct (usable_prompt (assoc "prompt" props)) as [prompt|].
    2: { do 2 eexists. split; [reflexivity |].
         apply json_response_well_formed. simpl; auto. }
    destruct (for_attempts adapters prompt [] w) as [[[early|results]|e] w1] eqn:Hrun.
    + apply for_attempts_early in Hrun as (id & text & ->).
      do 2 eexists. split; [reflexivity |].
      apply json_response_well_formed. simpl; auto.
    + do 2 eexists. split; [reflexivity |].
      apply json_response_well_formed. simpl; auto.
    + do 2 eexists. split; [reflexivity |].
      apply json_response_well_formed. simpl; auto.
Qed.

(** X3: an exception that escapes an adapter ends the request.  When the
    adapters before [K] fail in turn and [K]'s throws [e], the response is
    the 500 [{ error: "Unexpected error", details: String(e) }], the
    failures collected so far are dropped, and no later adapter runs: the
    world is the one [K] left plus the handler's log line. *)
Theorem escaped_exception_is_500 (impl : provider -> adapter)
    (req : http_request) (prompt : string) (before after : list provider)
    (K : provider) (w w1 w2 : World) (entries : list json) (e : js_error) :
  carries_prompt req prompt ->
  fail_in_turn impl prompt before w entries w1 ->
  impl K prompt w1 = (Throw e, w2) ->
  serve_with (map impl (before ++ K :: after)) req w =
    (Ok (json_response 500
           (JObj [("error", JStr "Unexpected error");
                  ("details", JStr (String_error e))])),
     record (EvConsoleError "ai-report handler error:" e) w2).
Proof.
  intros Hreq Hfail Hthrow.
  rewrite (serve_with_prompt _ _ _ _ Hreq).
  rewrite map_app. unfold try_catch, bind at 1.
  rewrite (for_attempts_fail_in_turn impl prompt before _ _ _ _ _ Hfail).
  simpl map. simpl for_attempts. unfold bind at 1. rewrite Hthrow.
  reflexivity.
Qed.

Lemma escaped_exception_is_500_witness :
  let impl := fun K : provider =>
    match K with
    | OpenAI => tryOpenAI
    | _ => fun _ : string => throw (Error "adapter crashed")
    end in
  serve_with (map impl [OpenAI; OpenRouter; Gemini])
    (post (JObj [("prompt", JStr "logs")])) offline =
    (Ok (json_response 500
           (JObj [("error", JStr "Unexpected error");
                  ("details", JStr "Error: adapter crashed")])),
     record (EvConsoleError "ai-report handler error:" (Error "adapter crashed"))
       offline).
Proof.
  intros impl.
  apply (escaped_exception_is_500 impl (post (JObj [("prompt", JStr "logs")]))
           "logs" [OpenAI] [Gemini] OpenRouter offline offline offline
           [attempt_entry "openai" "OPENAI_API_KEY not set"]
           (Error "adapter crashed")).
  - split; [discriminate |]. split; [discriminate |].
    exists [("prompt", JStr "logs")]. split; reflexivity.
  - apply fail_next with (w1 := offline); [reflexivity | apply fail_none].
  - reflexivity.
Defined.

(** *** Every run of the loop *)

Lemma attempt_returns (K : provider) prompt w :
  exists o w', attempt_of K prompt w = (Ok o, w').
Proof.
  rewrite attempt_of_unfold.
  destruct (configured (env w (credential_var K))) as [key|].
  - unfold try_catch, bind, console_error, ret.
    destruct (try_of K key prompt w) as [[o|e] w1]; do 2 eexists; reflexivity.
  - do 2 eexists; reflexivity.
Qed.

Lemma fail_in_turn_length impl prompt ks w entries w' :
  fail_in_turn impl prompt ks w entries w' ->
  List.length entries = List.length ks.
Proof. induction 1; simpl; congruence. Qed.

(** With adapters that never throw, the loop either returns at the first
    success or runs through every adapter. *)
Lemma loop_outcomes (impl : provider -> adapter) prompt :
  (forall K w, exists o w', impl K prompt w = (Ok o, w')) ->
  forall ks results w,
    (exists before K after entries w1 id text w2,
        ks = (before ++ K :: after)%list /\
        fail_in_turn impl prompt before w entries w1 /\
        impl K prompt w1 = (Ok (Success id text), w2) /\
        for_attempts (map impl ks) prompt results w =
          (Ok (inl (json_response 200
                      (JObj [("provider", JStr id); ("text", text)]))), w2)) \/
    (exists entries w',
        fail_in_turn impl prompt ks w entries w' /\
        for_attempts (map impl ks) prompt results w =
          (Ok (inr (results ++ entries)%list), w')).
Proof.
  intros Hnever. induction ks as [|K ks IH]; intros results w.
  - right. exists [], w. split; [constructor |]. simpl. now rewrite app_nil_r.
  - destruct (Hnever K w) as ([id text | id reason] & w1 & HK).
    + left. exists [], K, ks, [], w, id, text, w1.
      repeat split; [constructor | assumption |].
      simpl map. now rewrite (for_attempts_success _ _ _ _ _ _ _ _ HK).
    + simpl map. rewrite (for_attempts_failure _ _ _ _ _ _ _ _ HK).
      destruct (IH (results ++ [attempt_entry id reason])%list w1)
        as [(before & K' & after & entries & w2 & id' & text & w3 &
             -> & Hfail & HK' & Hrun)
           | (entries & w' & Hfail & Hrun)].
      * left. exists (K :: before), K', after,
          (attempt_entry id reason :: entries), w2, id', text, w3.
        repeat split; try assumption.
        econstructor; eassumption.
      * right. exists (attempt_entry id reason :: entries), w'.
        split; [econstructor; eassumption |].
        rewrite Hrun. now rewrite <- app_assoc.
Qed.

(** X4: a request that carries a usable prompt is answered 200 or 502,
    never 400 or 500.  Either some provider [K] of the handler's order is
    the first whose adapter succeeds, after those before it failed in
    turn, and the response is 200 with [K]'s id and a truthy text; or all
    five adapters failed in turn and the response is 502 with exactly five
    entries under [attempts]. *)
Theorem usable_prompt_is_200_or_502 (req : http_request) (prompt : string)
    (w : World) :
  carries_prompt req prompt ->
  (exists before K after entries w1 text w2,
      priority = (before ++ K :: after)%list /\
      fail_in_turn attempt_of prompt before w entries w1 /\
      attempt_of K prompt w1 = (Ok (Success (provider_id K) text), w2) /\
      truthy text = true /\
      serve req w =
        (Ok (json_response 200
               (JObj [("provider", JStr (provider_id K)); ("text", text)])),
         w2)) \/
  (exists entries w',
      fail_in_turn attempt_of prompt priority w entries w' /\
      List.length entries = 5 /\
      serve req w =
        (Ok (json_response 502
               (JObj [("error", JStr "All providers failed");
                      ("attempts", JArr entries)])),
         w')).
Proof.
  intros Hreq. unfold serve.
  rewrite (serve_with_prompt _ _ _ _ Hreq), attempts_priority.
  unfold try_catch, bind.
  destruct (loop_outcomes attempt_of prompt
              (fun K w0 => attempt_returns K prompt w0) priority [] w)
    as [(before & K & after & entries & w1 & id & text & w2 &
         Horder & Hfail & HK & Hrun)
       | (entries & w' & Hfail & Hrun)].
  - left. destruct (attempt_outcome _ _ _ _ _ HK) as [Hid Htext].
    simpl in Hid. subst id.
    exists before, K, after, entries, w1, text, w2.
    repeat split; try assumption.
    + exact (Htext _ _ eq_refl).
    + rewrite Hrun. reflexivity.
  - right. exists entries, w'. split; [assumption |].
    split; [exact (fail_in_turn_length _ _ _ _ _ _ Hfail) |].
    rewrite Hrun. reflexivity.
Qed.

Lemma usable_prompt_is_200_or_502_witness :
  (exists before K after entries w1 text w2,
      priority = (before ++ K :: after)%list /\
      fail_in_turn attempt_of "logs" before (only_gemini "disk is full") entries w1 /\
      attempt_of K "logs" w1 = (Ok (Success (provider_id K) text), w2) /\
      truthy text = true /\
      serve (post (JObj [("prompt", JStr "logs")])) (only_gemini "disk is full") =
        (Ok (json_response 200
               (JObj [("provider", JStr (provider_id K)); ("text", text)])),
         w2)) \/
  (exists entries w',
      fail_in_turn attempt_of "logs" priority (only_gemini "disk is full") entries w' /\
      List.length entries = 5 /\
      serve (post (JObj [("prompt", JStr "logs")])) (only_gemini "disk is full") =
        (Ok (json_response 502
               (JObj [("error", JStr "All providers failed");
                      ("attempts", JArr entries)])),
         w')).
Proof.
  apply (usable_prompt_is_200_or_502 (post (JObj [("prompt", JStr "logs")]))
           "logs" (only_gemini "disk is full")).
  split; [discriminate |]. split; [discriminate |].
  exists [("prompt", JStr "logs")]. split; reflexivity.
Defined.

(** *** Transport errors *)

Lemma res_ok_out_of_range r :
  (status r < 200 \/ 299 < status r)%Z -> res_ok r = false.
Proof.
  intros Hout. unfold res_ok. apply andb_false_iff.
  destruct Hout; [left; apply Z.leb_gt | right; apply Z.leb_gt]; assumption.
Qed.

(** X5: for each of the five adapters, a reply to its request whose status
    lies outside 200-299 gives the failure [Error: <Provider> HTTP
    <status>] with the status in decimal; the adapter made that one call,
    logged the error once and did nothing else (Replicate does not start
    polling). *)
Theorem http_error_is_failure (K : provider) (key prompt : string) (w : World)
    (r : reply) :
  configured (env w (credential_var K)) = Some key ->
  net w (log w) (request_of K key prompt) = NetReply r ->
  (status r < 200 \/ 299 < status r)%Z ->
  attempt_of K prompt w =
    (Ok (Failure (provider_id K)
           ("Error: " ++ display_name K ++ " HTTP " ++ num_to_string (status r) 0)),
     record (EvConsoleError (console_label K)
               (Error (display_name K ++ " HTTP " ++ num_to_string (status r) 0)))
       (record (EvFetch (request_of K key prompt)) w)).
Proof.
  intros Hkey Hnet Hout. apply res_ok_out_of_range in Hout.
  rewrite attempt_of_unfold, Hkey. unfold try_catch.
  destruct K; unfold try_of, request_of, provider_id, display_name,
    console_label in *.
  1: unfold tryOpenAI_try. 2: unfold tryOpenRouter_try. 3: unfold tryGemini_try.
  4: unfold tryHuggingFace_try. 5: unfold tryReplicate_try.
  all: unfold bind at 1, fetch; rewrite Hnet, Hout; reflexivity.
Qed.

Lemma http_error_is_failure_witness :
  tryHuggingFace "logs"
    (always_answers (mk_reply 503 (GoodJson (JObj [("error", JStr "loading")])))) =
    (Ok (Failure "huggingface" "Error: HuggingFace HTTP 503"),
     record (EvConsoleError "HuggingFace error:" (Error "HuggingFace HTTP 503"))
       (record (EvFetch (tryHuggingFace_request "k" "logs"))
          (always_answers
             (mk_reply 503 (GoodJson (JObj [("error", JStr "loading")])))))).
Proof.
  apply (http_error_is_failure HuggingFace "k" "logs"
           (always_answers (mk_reply 503 (GoodJson (JObj [("error", JStr "loading")]))))
           (mk_reply 503 (GoodJson (JObj [("error", JStr "loading")])))).
  - reflexivity.
  - reflexivity.
  - right. reflexivity.
Defined.

(** X6: for each of the five adapters, a request that is rejected by the
    network with [e], or a 2xx reply whose body fails to parse with [e],
    gives the failure whose reason is [String(e)]; the adapter made its one
    call and logged [e] once. *)
Theorem transport_fault_is_failure (K : provider) (key prompt : string)
    (w : World) (e : js_error) :
  configured (env w (credential_var K)) = Some key ->
  (net w (log w) (request_of K key prompt) = NetFail e \/
   exists r,
     net w (log w) (request_of K key prompt) = NetReply r /\
     res_ok r = true /\ payload r = BadJson e) ->
  attempt_of K prompt w =
    (Ok (Failure (provider_id K) (String_error e)),
     record (EvConsoleError (console_label K) e)
       (record (EvFetch (request_of K key prompt)) w)).
Proof.
  intros Hkey Hfault.
  rewrite attempt_of_unfold, Hkey. unfold try_catch.
  destruct K; unfold try_of, request_of, provider_id, display_name,
    console_label in *.
  1: unfold tryOpenAI_try. 2: unfold tryOpenRouter_try. 3: unfold tryGemini_try.
  4: unfold tryHuggingFace_try. 5: unfold tryReplicate_try.
  all: unfold bind at 1, fetch.
  all: destruct Hfault as [Hnet | (r & Hnet & Hok & Hbody)]; rewrite Hnet;
    [reflexivity |].
  all: rewrite Hok; simpl negb; cbv iota.
  all: unfold bind at 1, res_json; rewrite Hbody; reflexivity.
Qed.

Lemma transport_fault_is_failure_witness :
  let w := mk_world (fun _ => Some "k") (net offline) [] in
  tryReplicate "logs" w =
    (Ok (Failure "replicate" "TypeError: error sending request"),
     record (EvConsoleError "Replicate error:" (TypeError "error sending request"))
       (record (EvFetch (tryReplicate_request "k" "logs")) w)).
Proof.
  intros w.
  apply (transport_fault_is_failure Replicate "k" "logs" w
           (TypeError "error sending request")).
  - reflexivity.
  - left. reflexivity.
Defined.

(** X7: a variable that is set to the empty string counts as missing: the
    adapter fails with [<VARIABLE> not set] and leaves the world as it
    found it, without a network call. *)
Theorem empty_credential_is_missing (K : provider) (prompt : string) (w : World) :
  env w (credential_var K) = Some "" ->
  attempt_of K prompt w =
    (Ok (Failure (provider_id K) (credential_var K ++ " not set")), w).
Proof.
  intros Hempty. rewrite attempt_of_unfold, Hempty. reflexivity.
Qed.

Lemma empty_credential_is_missing_witness :
  let w := mk_world (fun _ => Some "") (net (always_answers (mk_reply 200 (GoodJson JNull)))) [] in
  attempt_of OpenRouter "logs" w =
    (Ok (Failure "openrouter" "OPENROUTER_API_KEY not set"), w).
Proof.
  intros w. apply (empty_credential_is_missing OpenRouter "logs" w). reflexivity.
Defined.

(** *** One request, one call *)

(** Case analysis from the inside out: a scrutinee is split only when it
    holds no other [match], so that no pair of result and world is split
    before it is known. *)
Ltac run_inner H :=
  cbv beta in H;
  repeat match type of H with
         | context [match ?x with _ => _ end] =>
             lazymatch x with
             | context [match _ with _ => _ end] => fail
             | _ => destruct x eqn:?; cbv beta iota in H
             end
         end.

(** The [try] block of a synchronous adapter makes its call and has no
    other effect, whatever comes back. *)
Lemma try_sync_world K key prompt w r w' :
  In K synchronous ->
  try_of K key prompt w = (r, w') ->
  w' = record (EvFetch (request_of K key prompt)) w.
Proof.
  intros HK Hrun.
  destruct HK as [<- | [<- | [<- | [<- | []]]]]; simpl in Hrun |- *.
  all: [> unfold tryOpenAI_try in Hrun | unfold tryOpenRouter_try in Hrun
        | unfold tryGemini_try in Hrun | unfold tryHuggingFace_try in Hrun ].
  all: unfold bind, lift, fetch, res_json, throw, ret in Hrun.
  all: run_inner Hrun.
  all: injection Hrun as _ <-; reflexivity.
Qed.

(** X8: OpenAI, OpenRouter, Gemini and HuggingFace never retry and never
    wait.  Without a credential the adapter fails and the world is
    untouched; with one it makes exactly one call, and then either
    succeeds with nothing else logged, or fails with the error logged
    once, the reason being [String] of that error. *)
Theorem synchronous_adapters_call_once (K : provider) (prompt : string)
    (w : World) :
  In K synchronous ->
  match configured (env w (credential_var K)) with
  | None =>
      attempt_of K prompt w =
        (Ok (Failure (provider_id K) (credential_var K ++ " not set")), w)
  | Some key =>
      let w1 := record (EvFetch (request_of K key prompt)) w in
      (exists text,
          attempt_of K prompt w = (Ok (Success (provider_id K) text), w1)) \/
      (exists e,
          attempt_of K prompt w =
            (Ok (Failure (provider_id K) (String_error e)),
             record (EvConsoleError (console_label K) e) w1))
  end.
Proof.
  intros HK. rewrite attempt_of_unfold.
  destruct (configured (env w (credential_var K))) as [key|]; [| reflexivity].
  intros w1. unfold try_catch.
  destruct (try_of K key prompt w) as [[o|e] w'] eqn:Hrun;
    pose proof (try_sync_world _ _ _ _ _ _ HK Hrun) as ->.
  - left. apply try_of_returns_success in Hrun as (text & -> & _).
    exists text. reflexivity.
  - right. exists e. reflexivity.
Qed.

Lemma synchronous_adapters_call_once_witness :
  let w := only_gemini "disk is full" in
  let w1 := record (EvFetch (request_of Gemini "g" "logs")) w in
  (exists text, attempt_of Gemini "logs" w = (Ok (Success "gemini" text), w1)) \/
  (exists e,
      attempt_of Gemini "logs" w =
        (Ok (Failure "gemini" (String_error e)),
         record (EvConsoleError "Gemini error:" e) w1)).
Proof.
  intros w w1.
  apply (synchronous_adapters_call_once Gemini "logs" w).
  right. right. left. reflexivity.
Defined.

(** *** The type of the text *)

Lemma try_of_returns_string (K : provider) key prompt w o w1 :
  K <> HuggingFace ->
  try_of K key prompt w = (Ok o, w1) ->
  exists s, o = Success (provider_id K) (JStr s) /\ s <> "".
Proof.
  intros HK Hrun. destruct K; simpl in Hrun |- *; try contradiction.
  4: { unfold tryReplicate_try, bind, fetch, res_json, throw, ret in Hrun.
       run_cases Hrun.
       all: apply poll_returns_success in Hrun as (text & -> & Hne).
       all: exists text; split; [reflexivity | assumption]. }
  all: [> unfold tryOpenAI_try in Hrun | unfold tryOpenRouter_try in Hrun
        | unfold tryGemini_try in Hrun ].
  all: unfold bind, lift, fetch, res_json, throw, ret in Hrun.
  all: run_cases Hrun.
  all: injection Hrun as <- _; eexists; split; [reflexivity | discriminate].
Qed.

(** X9: the text of a success is a non-empty string for every adapter but
    HuggingFace, which hands on whatever truthy value it found in the
    body: a numeric [generated_text] comes back as a number. *)
Theorem success_text_is_a_string :
  (forall K prompt w id text w',
      K <> HuggingFace ->
      attempt_of K prompt w = (Ok (Success id text), w') ->
      exists s, text = JStr s /\ s <> "") /\
  fst (tryHuggingFace "logs"
         (always_answers
            (mk_reply 200
               (GoodJson (JArr [JObj [("generated_text", JNum 42 0)]])))))
    = Ok (Success "huggingface" (JNum 42 0)).
Proof.
  split; [| reflexivity].
  intros K prompt w id text w' HK. rewrite attempt_of_unfold.
  destruct (configured (env w (credential_var K))) as [key|]; [| discriminate].
  unfold try_catch, bind, console_error, ret.
  destruct (try_of K key prompt w) as [[o|e] w1] eqn:Hrun; [| discriminate].
  intros Heq. injection Heq as -> _.
  apply (try_of_returns_string K key prompt w _ _ HK) in Hrun
    as (s & Heq & Hs).
  injection Heq as _ ->. eauto.
Qed.

Lemma success_text_is_a_string_witness :
  exists s, JStr "disk is full" = JStr s /\ s <> "".
Proof.
  apply (proj1 success_text_is_a_string Gemini "logs" (only_gemini "disk is full")
           "gemini" (JStr "disk is full")
           (record (EvFetch (tryGemini_request "g" "logs"))
              (only_gemini "disk is full"))).
  - discriminate.
  - reflexivity.
Defined.

(** *** The life of a Replicate job *)

(** The iteration that reads failed or canceled. *)
Lemma poll_terminal key url budget w r body st :
  net w (log w) (status_request key url) = NetReply r ->
  payload r = GoodJson body ->
  get_prop body "status" = Some (JStr st) ->
  st = "failed" \/ st = "canceled" ->
  poll key (JStr url) (S budget) w =
    (Throw (Error ("Replicate " ++ st)),
     record (EvFetch (status_request key url)) w).
Proof.
  intros Hnet Hbody Hstatus Hst.
  simpl. unfold bind at 1, lift.
  unfold bind at 1, fetch. rewrite Hnet.
  unfold bind at 1, res_json. rewrite Hbody. unfold ret at 1.
  assert (Hm : forall name w', member body name w' = (Ok (get_prop body name), w')).
  { intros name w'. destruct body; try reflexivity. discriminate Hstatus. }
  unfold bind at 1. rewrite Hm, Hstatus.
  destruct Hst as [-> | ->]; reflexivity.
Qed.

(** X10: a Replicate job that is reported failed or canceled at read
    [n + 1] (with [n < 30] pending reads before) ends the adapter at once:
    the failure is [Error: Replicate failed] or [Error: Replicate
    canceled], there is no delay after that read and no further read. *)
Theorem replicate_terminal_status_stops (prompt key url : string) (w : World)
    (n : nat) (r : reply) (body : json) (st : string) :
  accepted w key prompt url ->
  n < 30 ->
  (forall evs,
      status_reads evs < n ->
      reports_pending (net w (log w ++ evs) (status_request key url))) ->
  (forall evs,
      status_reads evs = n ->
      net w (log w ++ evs) (status_request key url) = NetReply r) ->
  payload r = GoodJson body ->
  get_prop body "status" = Some (JStr st) ->
  st = "failed" \/ st = "canceled" ->
  tryReplicate prompt w =
    (Ok (Failure "replicate" ("Error: Replicate " ++ st)),
     record_all
       (EvFetch (tryReplicate_request key prompt) :: turns n key url ++
        [EvFetch (status_request key url);
         EvConsoleError "Replicate error:" (Error ("Replicate " ++ st))])
       w).
Proof.
  intros Hacc Hn Hpending Hdone Hbody Hstatus Hst.
  rewrite (tryReplicate_accepted _ _ _ _ Hacc). unfold try_catch.
  replace 30 with (n + S (29 - n)) by lia.
  rewrite poll_pending_prefix.
  2: { intros evs Hlt. simpl. rewrite <- app_assoc. apply Hpending.
       unfold status_reads in *. simpl. exact Hlt. }
  rewrite (poll_terminal key url _ _ r body st); try assumption.
  2: { simpl. rewrite <- app_assoc. apply Hdone.
       change (status_reads (turns n key url) = n).
       apply status_reads_turns. }
  unfold bind, console_error, ret.
  rewrite !record_record_all, record_all_record, <- app_assoc.
  reflexivity.
Qed.

Lemma replicate_terminal_status_stops_witness :
  tryReplicate "logs" (settles_after 3 (JObj [("status", JStr "canceled")])) =
    (Ok (Failure "replicate" "Error: Replicate canceled"),
     record_all
       (EvFetch (tryReplicate_request "r8" "logs") :: turns 3 "r8" prediction_url ++
        [EvFetch (status_request "r8" prediction_url);
         EvConsoleError "Replicate error:" (Error "Replicate canceled")])
       (settles_after 3 (JObj [("status", JStr "canceled")]))).
Proof.
  apply (replicate_terminal_status_stops "logs" "r8" prediction_url
           (settles_after 3 (JObj [("status", JStr "canceled")])) 3
           (mk_reply 200 (GoodJson (JObj [("status", JStr "canceled")])))
           (JObj [("status", JStr "canceled")]) "canceled").
  - apply accepted_replicate_only.
  - lia.
  - intros evs. apply settles_after_pending.
  - intros evs. apply settles_after_final.
  - reflexivity.
  - reflexivity.
  - right. reflexivity.
Defined.

(** X11: a Replicate job that is reported succeeded at read [n + 1], for
    any [n < 30] pending reads before, returns at that read: a success
    with the output string, after [n] delays and [n + 1] reads, with no
    delay after the last read. *)
Theorem replicate_succeeds_at_any_read (prompt key url : string) (w : World)
    (n : nat) (r : reply) (body : json) (X : string) :
  accepted w key prompt url ->
  n < 30 ->
  X <> "" ->
  (forall evs,
      status_reads evs < n ->
      reports_pending (net w (log w ++ evs) (status_request key url))) ->
  (forall evs,
      status_reads evs = n ->
      net w (log w ++ evs) (status_request key url) = NetReply r) ->
  payload r = GoodJson body ->
  get_prop body "status" = Some (JStr "succeeded") ->
  get_prop body "output" = Some (JStr X) ->
  tryReplicate prompt w =
    (Ok (Success "replicate" (JStr X)),
     record_all
       (EvFetch (tryReplicate_request key prompt) :: turns n key url ++
        [EvFetch (status_request key url)])
       w).
Proof.
  intros Hacc Hn HX Hpending Hdone Hbody Hstatus Houtput.
  rewrite (tryReplicate_accepted _ _ _ _ Hacc). unfold try_catch.
  replace 30 with (n + S (29 - n)) by lia.
  rewrite (poll_pending_then_succeeded key url X r body HX Hbody Hstatus
             Houtput n (29 - n)).
  - now rewrite record_all_record.
  - intros evs Hlt. simpl. rewrite <- app_assoc. apply Hpending.
    unfold status_reads in *. simpl. exact Hlt.
  - intros evs Heq. simpl. rewrite <- app_assoc. apply Hdone.
    unfold status_reads in *. simpl. exact Heq.
Qed.

Lemma replicate_succeeds_at_any_read_witness :
  tryReplicate "logs"
    (settles_after 2 (JObj [("status", JStr "succeeded"); ("output", JStr "done")])) =
    (Ok (Success "replicate" (JStr "done")),
     record_all
       (EvFetch (tryReplicate_request "r8" "logs") :: turns 2 "r8" prediction_url ++
        [EvFetch (status_request "r8" prediction_url)])
       (settles_after 2
          (JObj [("status", JStr "succeeded"); ("output", JStr "done")]))).
Proof.
  apply (replicate_succeeds_at_any_read "logs" "r8" prediction_url
           (settles_after 2
              (JObj [("status", JStr "succeeded"); ("output", JStr "done")]))
           2
           (mk_reply 200
              (GoodJson (JObj [("status", JStr "succeeded"); ("output", JStr "done")])))
           (JObj [("status", JStr "succeeded"); ("output", JStr "done")]) "done").
  - apply accepted_replicate_only.
  - lia.
  - discriminate.
  - intros evs. apply settles_after_pending.
  - intros evs. apply settles_after_final.
  - reflexivity.
  - reflexivity.
  - reflexivity.
Defined.

(** X12: the timeout is decided by the first 30 reads alone.  When each of
    them reports a pending job the adapter fails with [Error: Replicate
    timeout] after 30 reads and 30 delays, whatever a 31st read would
    have said: a job that finishes later is lost. *)
Theorem replicate_times_out_after_30_reads (prompt key url : string)
    (w : World) :
  accepted w key prompt url ->
  (forall evs,
      status_reads evs < 30 ->
      reports_pending (net w (log w ++ evs) (status_request key url))) ->
  tryReplicate prompt w =
    (Ok (Failure "replicate" "Error: Replicate timeout"),
     record_all
       (EvFetch (tryReplicate_request key prompt) :: turns 30 key url ++
        [EvConsoleError "Replicate error:" (Error "Replicate timeout")])
       w).
Proof.
  intros Hacc Hpending.
  rewrite (tryReplicate_accepted _ _ _ _ Hacc). unfold try_catch.
  change 30 with (30 + 0) at 1.
  rewrite poll_pending_prefix.
  - unfold poll, throw, bind, console_error, ret.
    now rewrite record_record_all, record_all_record.
  - intros evs Hlt. simpl. rewrite <- app_assoc. apply Hpending.
    unfold status_reads in *. simpl. exact Hlt.
Qed.

Lemma replicate_times_out_after_30_reads_witness :
  tryReplicate "logs"
    (settles_after 30 (JObj [("status", JStr "succeeded"); ("output", JStr "late")])) =
    (Ok (Failure "replicate" "Error: Replicate timeout"),
     record_all
       (EvFetch (tryReplicate_request "r8" "logs") :: turns 30 "r8" prediction_url ++
        [EvConsoleError "Replicate error:" (Error "Replicate timeout")])
       (settles_after 30
          (JObj [("status", JStr "succeeded"); ("output", JStr "late")]))).
Proof.
  apply (replicate_times_out_after_30_reads "logs" "r8" prediction_url
           (settles_after 30
              (JObj [("status", JStr "succeeded"); ("output", JStr "late")]))).
  - apply accepted_replicate_only.
  - intros evs. apply settles_after_pending.
Defined.

(** X13: a 2xx reply to the submission whose body has no truthy
    [urls.get] gives the failure [Error: Replicate missing status URL];
    the adapter made the submission only, and no status read. *)
Theorem replicate_needs_status_url (prompt key : string) (w : World)
    (r : reply) (data : json) :
  configured (env w "REPLICATE_API_KEY") = Some key ->
  net w (log w) (tryReplicate_request key prompt) = NetReply r ->
  res_ok r = true ->
  payload r = GoodJson data ->
  truthy_opt (Some data ?. "urls" ?. "get") = false ->
  tryReplicate prompt w =
    (Ok (Failure "replicate" "Error: Replicate missing status URL"),
     record (EvConsoleError "Replicate error:"
               (Error "Replicate missing status URL"))
       (record (EvFetch (tryReplicate_request key prompt)) w)).
Proof.
  intros Hkey Hnet Hok Hbody Hurl.
  unfold tryReplicate, bind at 1, Deno_env_get. rewrite Hkey.
  unfold try_catch, tryReplicate_try.
  unfold bind at 1, fetch. rewrite Hnet, Hok. simpl negb. cbv iota.
  unfold bind at 1, res_json. rewrite Hbody. unfold ret at 1.
  cbv zeta. rewrite Hurl. reflexivity.
Qed.

Lemma replicate_needs_status_url_witness :
  tryReplicate "logs"
    (always_answers (mk_reply 201 (GoodJson (JObj [("id", JStr "p1")])))) =
    (Ok (Failure "replicate" "Error: Replicate missing status URL"),
     record (EvConsoleError "Replicate error:"
               (Error "Replicate missing status URL"))
       (record (EvFetch (tryReplicate_request "k" "logs"))
          (always_answers (mk_reply 201 (GoodJson (JObj [("id", JStr "p1")])))))).
Proof.
  apply (replicate_needs_status_url "logs" "k"
           (always_answers (mk_reply 201 (GoodJson (JObj [("id", JStr "p1")]))))
           (mk_reply 201 (GoodJson (JObj [("id", JStr "p1")])))
           (JObj [("id", JStr "p1")])).
  - reflexivity.
  - reflexivity.
  - reflexivity.
  - reflexivity.
  - reflexivity.
Defined.

(** *** The cost of a request *)

Lemma network_calls_app evs1 evs2 :
  network_calls (evs1 ++ evs2) = network_calls evs1 + network_calls evs2.
Proof. unfold network_calls. now rewrite filter_app, length_app. Qed.

Lemma delay_ms_app evs1 evs2 :
  (delay_ms (evs1 ++ evs2) = delay_ms evs1 + delay_ms evs2)%Z.
Proof.
  induction evs1 as [|ev evs1 IH]; [reflexivity |].
  destruct ev; simpl; rewrite IH; lia.
Qed.

Section Spends.
Context {A B : Type}.

Lemma spends_silent (r : result A) calls ms :
  (0 <= ms)%Z -> spends (fun w => (r, w)) calls ms.
Proof.
  intros Hms w. exists []. simpl. rewrite record_all_nil.
  split; [reflexivity |]. split; [unfold network_calls; simpl; lia | exact Hms].
Qed.

Lemma spends_le (m : M A) calls calls' ms ms' :
  spends m calls ms -> calls <= calls' -> (ms <= ms')%Z -> spends m calls' ms'.
Proof.
  intros Hm Hc Hd w. destruct (Hm w) as (evs & Heq & Hcalls & Hms).
  exists evs. split; [assumption |]. split; lia.
Qed.

Lemma spends_bind (m : M A) (k : A -> M B) c1 c2 d1 d2 :
  (0 <= d2)%Z ->
  spends m c1 d1 -> (forall a, spends (k a) c2 d2) ->
  spends (bind m k) (c1 + c2) (d1 + d2).
Proof.
  intros Hd2 Hm Hk w. unfold bind.
  destruct (Hm w) as (evs1 & Heq1 & Hc1 & Hd1).
  destruct (m w) as [[a|e] w1]; simpl in Heq1; subst w1.
  - destruct (Hk a (record_all evs1 w)) as (evs2 & Heq2 & Hc2 & Hd2').
    exists (evs1 ++ evs2)%list. rewrite Heq2, record_all_app.
    split; [reflexivity |]. rewrite network_calls_app, delay_ms_app. lia.
  - exists evs1. split; [reflexivity |]. lia.
Qed.

Lemma spends_try_catch (m : M A) (h : js_error -> M A) c1 c2 d1 d2 :
  (0 <= d2)%Z ->
  spends m c1 d1 -> (forall e, spends (h e) c2 d2) ->
  spends (try_catch m h) (c1 + c2) (d1 + d2).
Proof.
  intros Hd2 Hm Hh w. unfold try_catch.
  destruct (Hm w) as (evs1 & Heq1 & Hc1 & Hd1).
  destruct (m w) as [[a|e] w1]; simpl in Heq1; subst w1.
  - exists evs1. split; [reflexivity |]. lia.
  - destruct (Hh e (record_all evs1 w)) as (evs2 & Heq2 & Hc2 & Hd2').
    exists (evs1 ++ evs2)%list. rewrite Heq2, record_all_app.
    split; [reflexivity |]. rewrite network_calls_app, delay_ms_app. lia.
Qed.
End Spends.

(** Binding a computation that costs nothing. *)
Lemma spends_bind0 {A B} (m : M A) (k : A -> M B) calls ms :
  (0 <= ms)%Z ->
  spends m 0 0 -> (forall a, spends (k a) calls ms) ->
  spends (bind m k) calls ms.
Proof. intros Hms Hm Hk. exact (spends_bind m k 0 calls 0 ms Hms Hm Hk). Qed.

Lemma spends_ret {A} (a : A) calls ms : (0 <= ms)%Z -> spends (ret a) calls ms.
Proof. apply (spends_silent (Ok a)). Qed.

Lemma spends_throw {A} e calls ms : (0 <= ms)%Z -> spends (@throw A e) calls ms.
Proof. apply (spends_silent (Throw e)). Qed.

Lemma spends_lift {A} (r : result A) calls ms :
  (0 <= ms)%Z -> spends (lift r) calls ms.
Proof. apply (spends_silent r). Qed.

Lemma spends_env name : spends (Deno_env_get name) 0 0.
Proof.
  intros w. exists []. unfold Deno_env_get. simpl. rewrite record_all_nil.
  split; [reflexivity |]. split; [unfold network_calls; simpl |]; lia.
Qed.

Lemma spends_fetch rq : spends (fetch rq) 1 0.
Proof.
  intros w. exists [EvFetch rq]. unfold fetch.
  split; [destruct (net w (log w) rq); reflexivity |].
  split; [unfold network_calls; simpl |]; simpl; lia.
Qed.

Lemma spends_sleep ms : spends (sleep ms) 0 ms.
Proof.
  intros w. exists [EvSleep ms]. unfold sleep.
  split; [reflexivity |]. split; [unfold network_calls |]; simpl; lia.
Qed.

Lemma spends_res_json r : spends (res_json r) 0 0.
Proof.
  unfold res_json.
  destruct (payload r); [apply spends_ret | apply spends_throw]; lia.
Qed.

Lemma spends_member v name : spends (member v name) 0 0.
Proof.
  unfold member. destruct v; first [apply spends_ret | apply spends_throw]; lia.
Qed.

Lemma spends_console {A} label e (a : A) :
  spends (console_error label e ;;; ret a) 0 0.
Proof.
  intros w. exists [EvConsoleError label e].
  split; [reflexivity |]. split; [unfold network_calls |]; simpl; lia.
Qed.

(** A loop of [budget] iterations makes at most [budget] calls and waits
    at most [budget] seconds. *)
Lemma poll_spends key endpoint budget :
  spends (poll key endpoint budget) budget (1000 * Z.of_nat budget).
Proof.
  induction budget as [|budget IH]; [apply spends_throw; lia |].
  assert (Hnn : (0 <= 1000 * Z.of_nat budget)%Z) by lia.
  simpl poll.
  apply spends_bind0; [lia | apply spends_lift; lia | intros url].
  apply (spends_le _ (1 + budget) _ (0 + (1000 + 1000 * Z.of_nat budget)));
    [| lia | lia].
  apply spends_bind; [lia | apply spends_fetch | intros check].
  apply spends_bind0; [lia | apply spends_res_json | intros body].
  apply spends_bind0; [lia | apply spends_member | intros st].
  destruct (strict_eq st "succeeded").
  - apply spends_bind0; [lia | apply spends_member | intros output].
    apply spends_bind0; [lia | apply spends_lift; lia | intros text].
    destruct (negb (truthy_string text));
      [apply spends_throw | apply spends_ret]; lia.
  - destruct (strict_eq st "failed" || strict_eq st "canceled").
    + apply spends_bind0; [lia | apply spends_lift; lia | intros s].
      apply spends_throw; lia.
    + apply (spends_le _ (0 + budget) _ (1000 + 1000 * Z.of_nat budget));
        [| lia | lia].
      apply spends_bind; [lia | apply spends_sleep | intros _; exact IH].
Qed.

Lemma replicate_cost_ceiling_aux (prompt : string) :
  spends (tryReplicate prompt) 31 30000.
Proof.
  unfold tryReplicate.
  apply spends_bind0; [lia | apply spends_env | intros REPLICATE_API_KEY].
  destruct (configured REPLICATE_API_KEY) as [key|]; [| apply spends_ret; lia].
  apply (spends_try_catch _ _ 31 0 30000 0);
    [lia | | intros e; apply spends_console].
  unfold tryReplicate_try.
  apply (spends_bind _ _ 1 30 0 30000); [lia | apply spends_fetch | intros res].
  destruct (negb (res_ok res)); [apply spends_throw; lia |].
  apply spends_bind0; [lia | apply spends_res_json | intros data]. cbv zeta.
  destruct (negb (truthy_opt _)); [apply spends_throw; lia |].
  apply (poll_spends _ _ 30).
Qed.

(** X14: whatever the network answers, one run of the Replicate adapter
    makes at most 31 network calls (the submission and 30 status reads)
    and waits at most 30000 ms in all; it only appends to the log. *)
Theorem replicate_cost_ceiling (prompt : string) :
  (forall w, exists evs,
      snd (tryReplicate prompt w) = record_all evs w /\
      network_calls evs <= 31 /\
      (delay_ms evs <= 30000)%Z) /\
  (exists evs,
      snd (tryReplicate prompt stalled) = record_all evs stalled /\
      network_calls evs = 31 /\
      delay_ms evs = 30000%Z).
Proof.
  split; [apply replicate_cost_ceiling_aux |].
  exists (EvFetch (tryReplicate_request "r8" prompt) :: turns 30 "r8" prediction_url ++
          [EvConsoleError "Replicate error:" (Error "Replicate timeout")])%list.
  split; [| split; reflexivity].
  rewrite (tryReplicate_accepted prompt stalled "r8" prediction_url
             (accepted_replicate_only _ prompt)).
  unfold try_catch. rewrite poll_pending_forever.
  - unfold bind, console_error, ret. simpl snd.
    now rewrite record_record_all, record_all_record.
  - intros evs.
    exists (mk_reply 404 (GoodJson (JObj [("detail", JStr "Not found")]))).
    exists (JObj [("detail", JStr "Not found")]).
    repeat split; try reflexivity; discriminate.
Qed.

(** A synchronous adapter makes at most one call and never waits. *)
Lemma synchronous_spends (K : provider) prompt :
  In K synchronous -> spends (attempt_of K prompt) 1 0.
Proof.
  intros HK w. rewrite attempt_of_unfold.
  destruct (configured (env w (credential_var K))) as [key|].
  - unfold try_catch.
    destruct (try_of K key prompt w) as [[o|e] w'] eqn:Hrun;
      pose proof (try_sync_world _ _ _ _ _ _ HK Hrun) as ->.
    + exists [EvFetch (request_of K key prompt)].
      split; [reflexivity |]. split; [unfold network_calls |]; simpl; lia.
    + exists [EvFetch (request_of K key prompt); EvConsoleError (console_label K) e].
      split; [| split; [unfold network_calls |]; simpl; lia].
      unfold bind, console_error, ret, record, record_all; simpl.
      now rewrite <- app_assoc.
  - exists []. simpl. rewrite record_all_nil.
    split; [reflexivity |]. split; [unfold network_calls |]; simpl; lia.
Qed.

Lemma for_attempts_spends (a : adapter) rest prompt c1 c2 d1 d2 :
  (0 <= d2)%Z ->
  spends (a prompt) c1 d1 ->
  (forall results, spends (for_attempts rest prompt results) c2 d2) ->
  forall results,
    spends (for_attempts (a :: rest) prompt results) (c1 + c2) (d1 + d2).
Proof.
  intros Hd2 Ha Hrest results. simpl.
  apply spends_bind; [exact Hd2 | exact Ha |].
  intros [id text | id reason]; [apply spends_ret; exact Hd2 | apply Hrest].
Qed.

(** X15: whatever the request, the environment and the network, one run of
    the handler makes at most 35 network calls (one for each of the four
    synchronous providers, 31 for Replicate) and waits at most 30000 ms
    in all; both ceilings are reached when every provider is configured,
    the synchronous ones fail and the Replicate job stays pending. *)
Theorem request_cost_ceiling :
  (forall req w, exists evs,
      snd (serve req w) = record_all evs w /\
      network_calls evs <= 35 /\
      (delay_ms evs <= 30000)%Z) /\
  (exists evs,
      snd (serve (post (JObj [("prompt", JStr "logs")])) worst_case) =
        record_all evs worst_case /\
      network_calls evs = 35 /\
      delay_ms evs = 30000%Z).
Proof.
  split.
  2: { exists (log (snd (serve (post (JObj [("prompt", JStr "logs")])) worst_case))).
       split; [vm_compute; reflexivity |]. split; vm_compute; reflexivity. }
  intros req. change (spends (serve req) 35 30000).
  unfold serve, serve_with.
  destruct (method req =? "OPTIONS")%string; [apply spends_ret; lia |].
  apply (spends_try_catch _ _ 35 0 30000 0);
    [lia | | intros e; apply spends_console].
  apply spends_bind0;
    [lia | unfold req_json; destruct (json_body req);
           [apply spends_ret | apply spends_throw]; lia | intros parsed].
  apply spends_bind0;
    [lia | unfold destructure_prompt; destruct parsed;
           first [apply spends_ret | apply spends_throw]; lia | intros prompt].
  destruct (usable_prompt prompt) as [p|]; [| apply spends_ret; lia].
  apply (spends_bind _ _ 35 0 30000 0); [lia | |].
  2: { intros [early | results]; apply spends_ret; lia. }
  unfold attempts.
  apply (for_attempts_spends _ _ _ 1 34 0 30000);
    [lia | apply (synchronous_spends OpenAI); simpl; auto |]. intros results1.
  apply (for_attempts_spends _ _ _ 1 33 0 30000);
    [lia | apply (synchronous_spends OpenRouter); simpl; auto |]. intros results2.
  apply (for_attempts_spends _ _ _ 1 32 0 30000);
    [lia | apply (synchronous_spends Gemini); simpl; auto |]. intros results3.
  apply (for_attempts_spends _ _ _ 1 31 0 30000);
    [lia | apply (synchronous_spends HuggingFace); simpl; auto |]. intros results4.
  apply (for_attempts_spends _ _ _ 31 0 30000 0);
    [lia | apply replicate_cost_ceiling_aux |]. intros results5.
  simpl. apply spends_ret; lia.
Qed.

(* ================================================================== *)
(** ** Properties of the page *)
(* ================================================================== *)

Module PageProperties.
Import Js Frontend PageVocabulary.

Lemma not_blank text : trim text <> "" -> negb (truthy_string (trim text)) = false.
Proof. destruct (trim text); [contradiction | reflexivity]. Qed.

Lemma shown_message_eq err :
  (if truthy_string (err_message err) then err_message err else "Analysis failed")
  = shown_message err.
Proof. unfold shown_message. destruct (err_message err); reflexivity. Qed.

(** X16: with nothing but white space typed in, [analyze] shows the toast
    [Please enter some text to analyze] and does nothing else: no call of
    the edge function or of Puter, and [loading] and [output] keep their
    values. *)
Theorem blank_prompt_is_refused (page : Page) :
  trim (prompt page) = "" ->
  analyze page =
    (Ok tt, note (ToastError "Please enter some text to analyze") page).
Proof.
  intros Hblank. unfold analyze. rewrite Hblank. reflexivity.
Qed.

Lemma blank_prompt_is_refused_witness :
  analyze (typed blanks refuses None) =
    (Ok tt,
     note (ToastError "Please enter some text to analyze")
       (typed blanks refuses None)).
Proof.
  apply (blank_prompt_is_refused (typed blanks refuses None)). reflexivity.
Defined.

(** X17: when the edge function answers without an error, [analyze] shows
    the text of the answer (the empty string when the answer has no truthy
    [text]) and the toast [Analyzed via <provider>], [provider] standing in
    for a missing name; it ends with [loading] off and never asks Puter. *)
Theorem answer_is_shown (page : Page) (data : json) (via : string) :
  trim (prompt page) <> "" ->
  invoke page "ai-report" (invoke_options (prompt page)) = InvokeSettles data None ->
  js_to_string (AiReport.nullish_or (Some data ?. "provider") (JStr "provider"))
    = Ok via ->
  analyze page =
    (Ok tt,
     settled page
       (match Some data ?. "text" with
        | Some text => if truthy text then text else JStr ""
        | None => JStr ""
        end)
       [Invoked "ai-report" (invoke_options (prompt page));
        ToastSuccess ("Analyzed via " ++ via)]).
Proof.
  intros Htyped Hinvoke Hvia. unfold analyze. rewrite (not_blank _ Htyped).
  unfold bind, setLoading, setOutput, try_finally, try_catch, functions_invoke,
    lift, toast_success.
  cbn [invoke with_output with_loading prompt].
  fold (invoke_options (prompt page)). rewrite Hinvoke, Hvia.
  destruct (Some data ?. "text") as [text|];
    [unfold truthy_opt;
     destruct text as [| [|] | m e | [|c s] | items | props]; simpl truthy;
     try destruct (negb (m =? 0)%Z) |];
    unfold settled, note, with_output, with_loading;
    cbn [trail prompt loading output invoke puter_chat];
    rewrite <- ?app_assoc; reflexivity.
Qed.

Lemma answer_is_shown_witness :
  analyze (typed "logs" (answers (JObj [("provider", JStr "gemini")])) None) =
    (Ok tt,
     settled (typed "logs" (answers (JObj [("provider", JStr "gemini")])) None)
       (JStr "")
       [Invoked "ai-report" (invoke_options "logs");
        ToastSuccess "Analyzed via gemini"]).
Proof.
  apply (answer_is_shown
           (typed "logs" (answers (JObj [("provider", JStr "gemini")])) None)
           (JObj [("provider", JStr "gemini")]) "gemini").
  - discriminate.
  - reflexivity.
  - reflexivity.
Defined.

(** The run up to the fallback, when the call of the edge function fails. *)
Lemma analyze_after_failure page err :
  trim (prompt page) <> "" ->
  invoke_fails page err ->
  analyze page =
    try_finally
      (try_catch
         (fun page' =>
            match puter_chat page' with
            | Some chat =>
                (text <- ai_chat chat (prompt page) chat_options ;;
                 if truthy_opt text then
                   s <- lift (match text with
                              | Some (JStr s) => Ok s
                              | _ => js_to_string (AiReport.nullish_or text JNull)
                              end) ;;
                   setOutput (JStr s) ;;;
                   toast_success "Analyzed via Puter.js fallback"
                 else throw err) page'
            | None => throw err page'
            end)
         (fun fallbackErr =>
            console_error (Some "Puter.js fallback failed:") fallbackErr ;;;
            toast_error (if truthy_string (err_message err)
                         then err_message err
                         else "Analysis failed")))
      (with_loading false)
      (note (Logged None err)
         (note (Invoked "ai-report" (invoke_options (prompt page)))
            (with_output (JStr "") (with_loading true page)))).
Proof.
  intros Htyped Hfails. unfold analyze. rewrite (not_blank _ Htyped).
  unfold bind at 1 2, setLoading, setOutput, try_finally.
  unfold try_catch at 1, bind at 1, functions_invoke.
  cbn [invoke with_output with_loading prompt].
  fold (invoke_options (prompt page)). fold chat_options.
  destruct Hfails as [Hrej | (data & Hset)];
    [rewrite Hrej | rewrite Hset]; reflexivity.
Qed.

(** X18: when the call of the edge function fails with [err] and the
    Puter fallback comes to nothing, the error toast shows the message of
    [err], the first error, or [Analysis failed] when it has none, never
    the fallback's own error; [output] is left empty and [loading] ends
    off. *)
Theorem first_error_is_shown (page : Page) (err : js_error)
    (evs : list ui_event) :
  trim (prompt page) <> "" ->
  invoke_fails page err ->
  fallback_fails page err evs ->
  analyze page =
    (Ok tt,
     settled page (JStr "")
       (Invoked "ai-report" (invoke_options (prompt page)) ::
        Logged None err :: evs ++ [ToastError (shown_message err)])%list).
Proof.
  intros Htyped Hfails Hfallback.
  rewrite (analyze_after_failure page err Htyped Hfails).
  rewrite shown_message_eq.
  unfold try_finally, try_catch.
  cbn [puter_chat note with_output with_loading].
  destruct Hfallback as [Hnone | chat e Hchat Hrej | chat v Hchat Hret Hv
                        | chat v e Hchat Hret Hv Hstr];
    rewrite ?Hnone, ?Hchat.
  - unfold throw, bind, console_error, toast_error, settled, note, with_loading;
    cbn [trail prompt loading output invoke puter_chat].
    now rewrite <- !app_assoc.
  - unfold bind at 1, ai_chat. cbn [prompt]. rewrite Hrej.
    unfold bind, console_error, toast_error, settled, note, with_loading;
      cbn [trail prompt loading output invoke puter_chat].
    now rewrite <- !app_assoc.
  - unfold bind at 1, ai_chat. cbn [prompt]. rewrite Hret, Hv.
    unfold throw, bind, console_error, toast_error, settled, note, with_loading;
      cbn [trail prompt loading output invoke puter_chat].
    now rewrite <- !app_assoc.
  - unfold bind at 1, ai_chat. cbn [prompt]. rewrite Hret.
    unfold truthy_opt. rewrite Hv.
    unfold bind at 1, lift.
    assert (Hconv : match Some v with
                    | Some (JStr s) => Ok s
                    | _ => js_to_string (AiReport.nullish_or (Some v) JNull)
                    end = Throw e).
    { destruct v; exact Hstr. }
    rewrite Hconv.
    unfold bind, console_error, toast_error, settled, note, with_loading;
      cbn [trail prompt loading output invoke puter_chat].
    now rewrite <- !app_assoc.
Qed.
Lemma first_error_is_shown_witness :
  analyze (typed "logs" refuses (Some (fun _ _ => ChatRejects (Error "quota exceeded")))) =
    (Ok tt,
     settled
       (typed "logs" refuses (Some (fun _ _ => ChatRejects (Error "quota exceeded"))))
       (JStr "")
       [Invoked "ai-report" (invoke_options "logs");
        Logged None
          (mk_error "FunctionsHttpError"
             "Edge Function returned a non-2xx status code");
        Chatted "logs" chat_options;
        Logged (Some "Puter.js fallback failed:") (Error "quota exceeded");
        ToastError "Edge Function returned a non-2xx status code"]).
Proof.
  apply (first_error_is_shown
           (typed "logs" refuses
              (Some (fun _ _ => ChatRejects (Error "quota exceeded"))))
           (mk_error "FunctionsHttpError"
              "Edge Function returned a non-2xx status code")
           [Chatted "logs" chat_options;
            Logged (Some "Puter.js fallback failed:") (Error "quota exceeded")]).
  - discriminate.
  - right. exists JNull. reflexivity.
  - exact (chat_rejects
             (typed "logs" refuses
                (Some (fun _ _ => ChatRejects (Error "quota exceeded"))))
             (mk_error "FunctionsHttpError"
                "Edge Function returned a non-2xx status code")
             (fun _ _ => ChatRejects (Error "quota exceeded"))
             (Error "quota exceeded") eq_refl eq_refl).
Defined.

(** X19: when the call of the edge function fails and Puter's chat
    returns a truthy value that converts to the text [s], [analyze] shows
    [s] and the toast [Analyzed via Puter.js fallback]; no error toast is
    shown, and [loading] ends off. *)
Theorem fallback_answer_is_shown (page : Page) (err : js_error)
    (chat : string -> json -> chat_result) (v : json) (s : string) :
  trim (prompt page) <> "" ->
  invoke_fails page err ->
  puter_chat page = Some chat ->
  chat (prompt page) chat_options = ChatReturns (Some v) ->
  truthy v = true ->
  js_to_string v = Ok s ->
  analyze page =
    (Ok tt,
     settled page (JStr s)
       [Invoked "ai-report" (invoke_options (prompt page));
        Logged None err;
        Chatted (prompt page) chat_options;
        ToastSuccess "Analyzed via Puter.js fallback"]).
Proof.
  intros Htyped Hfails Hchat Hret Hv Hstr.
  rewrite (analyze_after_failure page err Htyped Hfails).
  unfold try_finally, try_catch.
  cbn [puter_chat note with_output with_loading]. rewrite Hchat.
  unfold bind at 1, ai_chat. cbn [prompt]. rewrite Hret.
  unfold truthy_opt. rewrite Hv.
  unfold bind at 1, lift.
  assert (Hconv : match Some v with
                  | Some (JStr s) => Ok s
                  | _ => js_to_string (AiReport.nullish_or (Some v) JNull)
                  end = Ok s).
  { destruct v; exact Hstr. }
  rewrite Hconv.
  unfold bind, setOutput, toast_success, settled, note, with_output,
    with_loading; cbn [trail prompt loading output invoke puter_chat].
  now rewrite <- !app_assoc.
Qed.

Lemma fallback_answer_is_shown_witness :
  analyze (typed "logs" refuses (Some (fun _ _ => ChatReturns (Some (JNum 42 0))))) =
    (Ok tt,
     settled
       (typed "logs" refuses (Some (fun _ _ => ChatReturns (Some (JNum 42 0)))))
       (JStr "42")
       [Invoked "ai-report" (invoke_options "logs");
        Logged None
          (mk_error "FunctionsHttpError"
             "Edge Function returned a non-2xx status code");
        Chatted "logs" chat_options;
        ToastSuccess "Analyzed via Puter.js fallback"]).
Proof.
  apply (fallback_answer_is_shown
           (typed "logs" refuses (Some (fun _ _ => ChatReturns (Some (JNum 42 0)))))
           (mk_error "FunctionsHttpError"
              "Edge Function returned a non-2xx status code")
           (fun _ _ => ChatReturns (Some (JNum 42 0))) (JNum 42 0) "42").
  - discriminate.
  - right. exists JNull. reflexivity.
  - reflexivity.
  - reflexivity.
  - reflexivity.
  - reflexivity.
Defined.

(** The fallback always ends quietly: at most one chat, then exactly one
    toast, which comes last. *)
Lemma fallback_settles text err page0 :
  exists out front t,
    fallback text err page0 = (Ok tt, shows page0 out (front ++ [t])) /\
    is_toast t = true /\ toasts front = 0 /\ chats front <= 1.
Proof.
  unfold fallback, try_catch.
  destruct (puter_chat page0) as [chat|] eqn:Hchat.
  2: { exists (output page0), [Logged (Some "Puter.js fallback failed:") err],
         (ToastError (if truthy_string (err_message err)
                      then err_message err else "Analysis failed")).
       split; [| repeat split; unfold chats; simpl; lia].
       unfold throw, bind, console_error, toast_error, shows, note;
         cbn [trail prompt loading output invoke puter_chat].
       now rewrite <- !app_assoc. }
  unfold bind at 1, ai_chat.
  destruct (chat text chat_options) as [e | answer].
  { exists (output page0),
      [Chatted text chat_options; Logged (Some "Puter.js fallback failed:") e],
      (ToastError (if truthy_string (err_message err)
                   then err_message err else "Analysis failed")).
    split; [| repeat split; unfold chats; simpl; lia].
    unfold bind, console_error, toast_error, shows, note;
      cbn [trail prompt loading output invoke puter_chat].
    now rewrite <- !app_assoc. }
  destruct (truthy_opt answer).
  2: { exists (output page0),
         [Chatted text chat_options; Logged (Some "Puter.js fallback failed:") err],
         (ToastError (if truthy_string (err_message err)
                      then err_message err else "Analysis failed")).
       split; [| repeat split; unfold chats; simpl; lia].
       unfold throw, bind, console_error, toast_error, shows, note;
         cbn [trail prompt loading output invoke puter_chat].
       now rewrite <- !app_assoc. }
  unfold bind at 1, lift.
  match goal with
  | |- context [match ?conv with Ok _ => _ | Throw _ => _ end] =>
      destruct conv as [s | e]
  end.
  - exists (JStr s), [Chatted text chat_options],
      (ToastSuccess "Analyzed via Puter.js fallback").
    split; [| repeat split; unfold chats; simpl; lia].
    unfold bind, setOutput, toast_success, shows, note, with_output;
      cbn [trail prompt loading output invoke puter_chat].
    now rewrite <- !app_assoc.
  - exists (output page0),
      [Chatted text chat_options; Logged (Some "Puter.js fallback failed:") e],
      (ToastError (if truthy_string (err_message err)
                   then err_message err else "Analysis failed")).
    split; [| repeat split; unfold chats; simpl; lia].
    unfold bind, console_error, toast_error, shows, note;
      cbn [trail prompt loading output invoke puter_chat].
    now rewrite <- !app_assoc.
Qed.

(** [analyze] on a prompt that is not blank. *)
Lemma analyze_typed page :
  trim (prompt page) <> "" ->
  analyze page =
    try_finally
      (try_catch
         (r <- functions_invoke "ai-report" (invoke_options (prompt page)) ;;
          let (data, error) := r in
          match error with
          | Some error => throw error
          | None =>
              setOutput (if truthy_opt (Some data ?. "text")
                         then AiReport.nullish_or (Some data ?. "text") JNull
                         else JStr "") ;;;
              via <- lift (js_to_string
                             (AiReport.nullish_or (Some data ?. "provider")
                                (JStr "provider"))) ;;
              toast_success ("Analyzed via " ++ via)
          end)
         (fun err => console_error None err ;;; fallback (prompt page) err))
      (with_loading false)
      (with_output (JStr "") (with_loading true page)).
Proof.
  intros Htyped. unfold analyze. rewrite (not_blank _ Htyped). reflexivity.
Qed.

Lemma toasts_app evs1 evs2 : toasts (evs1 ++ evs2) = toasts evs1 + toasts evs2.
Proof. unfold toasts. now rewrite filter_app, length_app. Qed.

Lemma chats_app evs1 evs2 : chats (evs1 ++ evs2) = chats evs1 + chats evs2.
Proof. unfold chats. now rewrite filter_app, length_app. Qed.

(** After the events [pre], none of them a toast or a chat, the error
    handler of [analyze] leaves one toast, last. *)
Lemma handler_settles page err out0 pre :
  toasts pre = 0 -> chats pre = 0 ->
  exists out front t,
    (let (r, p') :=
       (console_error None err ;;; fallback (prompt page) err)
         (mk_page (prompt page) true out0 (invoke page) (puter_chat page)
            (trail page ++ pre)) in
     (r, with_loading false p')) =
      (Ok tt, settled page out (pre ++ Logged None err :: front ++ [t])) /\
    is_toast t = true /\ toasts front = 0 /\ chats front <= 1.
Proof.
  intros Htoasts Hchats. unfold bind at 1, console_error.
  destruct (fallback_settles (prompt page) err
              (note (Logged None err)
                 (mk_page (prompt page) true out0 (invoke page) (puter_chat page)
                    (trail page ++ pre))))
    as (out & front & t & Hrun & Ht & Hfront & Hc).
  rewrite Hrun. exists out, front, t. split; [| auto].
  unfold settled, shows, note, with_loading;
    cbn [trail prompt loading output invoke puter_chat].
  now rewrite <- !app_assoc.
Qed.

(** X20: whatever the edge function and Puter do, a run of [analyze] on a
    prompt that is not blank never throws, starts with the one call of the
    edge function, asks Puter at most once, shows exactly one toast, which
    is the last thing it does, and ends with [loading] off. *)
Theorem analyze_always_settles (page : Page) :
  trim (prompt page) <> "" ->
  exists out front t,
    analyze page =
      (Ok tt,
       settled page out
         (Invoked "ai-report" (invoke_options (prompt page)) :: front ++ [t])) /\
    is_toast t = true /\ toasts front = 0 /\ chats front <= 1.
Proof.
  intros Htyped. rewrite (analyze_typed page Htyped).
  unfold try_finally, try_catch at 1, bind at 1, functions_invoke.
  cbn [invoke with_output with_loading prompt].
  set (call := Invoked "ai-report" (invoke_options (prompt page))).
  destruct (invoke page "ai-report" (invoke_options (prompt page)))
    as [e | data [e|]].
  1, 2: destruct (handler_settles page e (JStr "") [call] eq_refl eq_refl)
          as (out & front & t & Hrun & Ht & Hfront & Hc);
        unfold note, with_output, with_loading in *; cbn in Hrun |- *;
        rewrite Hrun; exists out, (Logged None e :: front), t;
        split; [reflexivity | auto].
  unfold bind at 1, setOutput. unfold bind at 1, lift.
  set (out0 := if truthy_opt (Some data ?. "text")
               then AiReport.nullish_or (Some data ?. "text") JNull
               else JStr "").
  destruct (js_to_string
              (AiReport.nullish_or (Some data ?. "provider") (JStr "provider")))
    as [via | e].
  - exists out0, [], (ToastSuccess ("Analyzed via " ++ via)).
    split; [| auto].
    unfold toast_success, settled, note, with_output, with_loading;
      cbn [trail prompt loading output invoke puter_chat].
    now rewrite <- !app_assoc.
  - destruct (handler_settles page e out0 [call] eq_refl eq_refl)
      as (out & front & t & Hrun & Ht & Hfront & Hc).
    unfold note, with_output, with_loading in *; cbn in Hrun |- *.
    rewrite Hrun. exists out, (Logged None e :: front), t.
    split; [reflexivity | auto].
Qed.

Lemma analyze_always_settles_witness :
  exists out front t,
    analyze (typed "logs" refuses None) =
      (Ok tt,
       settled (typed "logs" refuses None) out
         (Invoked "ai-report" (invoke_options "logs") :: front ++ [t])) /\
    is_toast t = true /\ toasts front = 0 /\ chats front <= 1.
Proof.
  apply (analyze_always_settles (typed "logs" refuses None)). discriminate.
Defined.

End PageProperties.
